(** * subctl: broker deployment sequencing and gather pre-flight checks

    A shallow embedding of [pkg/deploy/broker.go] (the [Broker] operation,
    its [deploy] pipeline and its two validators) and of the [gather]
    command (its [Run] body and [checkGatherArguments]).

    Go values are modelled as follows.
    - [error] values are a small inductive type: [fmt.Errorf] keeps its
      format string and arguments, the wrapping done by the reporter keeps
      the message and the cause.  [nil] is [None].
    - [sets.Set[string]] is a [gset string]; the iteration order of the
      underlying Go map is unspecified, so [UnsortedList] is an interface
      ([SetOrder]) and every theorem holds for all of its implementations.
    - calls that reach the target cluster go through one handler,
      [perform]; every call and its result is appended to a log, next to
      the reporter's events.  The handler and the pure helpers of the
      [globalnet] and [image] packages are section variables. *)

From Stdlib Require Import ZArith NArith Ascii String DecimalString List Lia.
From stdpp Require Import base gmap sets list strings.

Local Open Scope string_scope.
Local Open Scope list_scope.

(** ** Errors *)

Inductive error : Type :=
| Errorf (format : string) (args : list string)
| Wrap (cause : error) (message : string).

(** ** Sets of strings ([k8s.io/apimachinery/pkg/util/sets]) *)

Definition sets_New (items : list string) : gset string := list_to_set items.

Definition sets_Has (s : gset string) (item : string) : bool :=
  bool_decide (item ∈ s).

Definition sets_Len (s : gset string) : Z := Z.of_nat (size s).

Definition sets_Insert (s : gset string) (item : string) : gset string :=
  {[item]} ∪ s.

(** [UnsortedList] returns the members in the unspecified order of a Go map
    iteration: some list holding every member exactly once. *)
Record SetOrder : Type := {
  UnsortedList : gset string → list string;
  UnsortedList_perm : ∀ s, UnsortedList s ≡ₚ elements s
}.

Definition elements_order : SetOrder :=
  {| UnsortedList := elements; UnsortedList_perm := fun s => reflexivity _ |}.

Definition reverse_order : SetOrder :=
  {| UnsortedList := fun s => reverse (elements s);
     UnsortedList_perm := λ s, reverse_Permutation (elements s) |}.

(** ** Components ([internal/component]) *)

Module component.
(** Modelled from the spec: [component.ServiceDiscovery] of
    [internal/component], which is not among the sources; the first member
    of the spec's known component set. *)
Definition ServiceDiscovery : string := "service-discovery".

(** Modelled from the spec: [component.Connectivity], the second member of
    the spec's known component set. *)
Definition Connectivity : string := "connectivity".

(** Modelled from the spec: [component.Globalnet], the component that the
    spec has "implicitly added, never supplied directly". *)
Definition Globalnet : string := "globalnet".
End component.

Definition ValidComponents : list string :=
  [component.ServiceDiscovery; component.Connectivity].

(** The [for ... range componentSet.UnsortedList()] loop of
    [isValidComponents]: the first member that is not valid stops it. *)
Fixpoint isValidComponents_loop (validComponentSet : gset string)
    (l : list string) : option error :=
  match l with
  | [] => None
  | c :: rest =>
      if negb (sets_Has validComponentSet c)
      then Some (Errorf "unknown component: %s" [c])
      else isValidComponents_loop validComponentSet rest
  end.

Definition isValidComponents (O : SetOrder) (componentSet : gset string)
    : option error :=
  let validComponentSet := sets_New ValidComponents in
  if (sets_Len componentSet <? 1)%Z
  then Some (Errorf "at least one component must be provided for deployment" [])
  else isValidComponents_loop validComponentSet (UnsortedList O componentSet).

(** ** Broker options *)

Module operatorv1alpha1.
(** The fields of the operator API's [BrokerSpec] that [broker.go] reads
    or writes; [DefaultGlobalnetClusterSize] is a Go [uint]. *)
Record BrokerSpec : Type := {
  Components : list string;
  GlobalnetEnabled : bool;
  GlobalnetCIDRRange : string;
  DefaultGlobalnetClusterSize : N
}.
End operatorv1alpha1.
Import operatorv1alpha1.

Record BrokerOptions : Type := {
  OperatorDebug : bool;
  Repository : string;
  ImageVersion : string;
  BrokerNamespace : string;
  BrokerSpec : operatorv1alpha1.BrokerSpec
}.

(** The assignment [options.BrokerSpec.DefaultGlobalnetClusterSize = size]
    through the [*BrokerOptions] pointer. *)
Definition set_DefaultGlobalnetClusterSize (options : BrokerOptions) (size : N)
    : BrokerOptions :=
  {| OperatorDebug := OperatorDebug options;
     Repository := Repository options;
     ImageVersion := ImageVersion options;
     BrokerNamespace := BrokerNamespace options;
     BrokerSpec :=
       {| Components := Components (BrokerSpec options);
          GlobalnetEnabled := GlobalnetEnabled (BrokerSpec options);
          GlobalnetCIDRRange := GlobalnetCIDRRange (BrokerSpec options);
          DefaultGlobalnetClusterSize := size |} |}.

(** ** Calls to the target cluster and the reporter's events *)

(** One constructor per collaborator operation that [Broker] and [deploy]
    invoke with a client of the target cluster, with the arguments computed
    from the options. *)
Inductive call : Type :=
| broker_Ensure (components : list string) (createSA : bool) (brokerNS : string)
| operator_Ensure (operatorNS image : string) (debug : bool)
| brokercr_Ensure (brokerNS : string) (spec : operatorv1alpha1.BrokerSpec)
| globalnet_ValidateExistingGlobalNetworks (brokerNS : string)
| globalnet_CreateConfigMap (globalnetEnabled : bool) (cidrRange : string)
    (clusterSize : N) (brokerNS : string).

Inductive event : Type :=
| Start (message : string)
| End_
| Failure (err : error)
| Called (c : call) (result : option error).

Record World (Cluster : Type) : Type := {
  cluster : Cluster;
  log : list event
}.
Arguments cluster {Cluster} _.
Arguments log {Cluster} _.

(** State passing over the world: the cluster and the chronological log. *)
Definition M (Cluster A : Type) : Type := World Cluster → A * World Cluster.

Global Instance M_ret {Cluster} : MRet (M Cluster) := λ A a w, (a, w).
Global Instance M_bind {Cluster} : MBind (M Cluster) :=
  λ A B f m w, let '(a, w') := m w in f a w'.

Definition emit {Cluster} (e : event) : M Cluster unit :=
  λ w, (tt, {| cluster := cluster w; log := log w ++ [e] |}).

(** ** The reporter ([admiral/pkg/reporter.Interface]) *)

Definition status_Start {Cluster} (message : string) : M Cluster unit :=
  emit (Start message).

Definition status_End {Cluster} : M Cluster unit := emit End_.

(** [status.Error(err, message)]: a nil error stays nil (the last line of
    [deploy] returns [status.Error] of a possibly nil error); otherwise the
    error is wrapped with the message, reported as a failure, the current
    operation is ended and the wrapped error is returned. *)
Definition status_Error {Cluster} (err : option error) (message : string)
    : M Cluster (option error) :=
  match err with
  | None => mret None
  | Some e =>
      emit (Failure (Wrap e message));;
      emit End_;;
      mret (Some (Wrap e message))
  end.

(** ** The globalnet configuration validator *)

Section Validators.
(** [globalnet.GetValidClusterSize] and [globalnet.IsValidCIDR] of the
    operator's [discovery/globalnet] package: pure functions of their
    arguments. *)
Variable GetValidClusterSize : string → N → N * option error.
Variable IsValidCIDR : string → option error.

Definition checkGlobalnetConfig (options : BrokerOptions)
    : option error * BrokerOptions :=
  if negb (GlobalnetEnabled (BrokerSpec options)) then (None, options)
  else
    let '(size, err) :=
      GetValidClusterSize (GlobalnetCIDRRange (BrokerSpec options))
                          (DefaultGlobalnetClusterSize (BrokerSpec options)) in
    let options := set_DefaultGlobalnetClusterSize options size in
    match err with
    | Some e => (Some e, options)
    | None => (IsValidCIDR (GlobalnetCIDRRange (BrokerSpec options)), options)
    end.
End Validators.

(** ** The deployment pipeline *)

Section Deploy.
Context {Cluster : Type}.

(** The collaborators: what a call does to the cluster and the error it
    returns.  What [operator.Ensure] itself reports through the reporter it
    is handed is not part of the log. *)
Variable perform : call → Cluster → option error * Cluster.
Variable GetValidClusterSize : string → N → N * option error.
Variable IsValidCIDR : string → option error.
(** [image.NewRepositoryInfo(repository, version, nil).GetOperatorImage()] *)
Variable GetOperatorImage : string → string → string.
(** [constants.OperatorNamespace] *)
Variable OperatorNamespace : string.
Variable O : SetOrder.

Definition invoke (c : call) : M Cluster (option error) :=
  λ w, let '(r, cl) := perform c (cluster w) in
       (r, {| cluster := cl; log := log w ++ [Called c r] |}).

(** The body of [deploy]; the deferred [status.End()] is in [deploy]. *)
Definition deploy_body (options : BrokerOptions) : M Cluster (option error) :=
  status_Start "Setting up broker RBAC";;
  err ← invoke (broker_Ensure (Components (BrokerSpec options)) false
                  (BrokerNamespace options));
  match err with
  | Some _ => status_Error err "error setting up broker RBAC"
  | None =>
      status_Start "Deploying the Submariner operator";;
      let operatorImage :=
        GetOperatorImage (Repository options) (ImageVersion options) in
      err ← invoke (operator_Ensure OperatorNamespace operatorImage
                      (OperatorDebug options));
      match err with
      | Some _ => status_Error err "error deploying Submariner operator"
      | None =>
          status_Start "Deploying the broker";;
          err ← invoke (brokercr_Ensure (BrokerNamespace options)
                          (BrokerSpec options));
          status_Error err "Broker deployment failed"
      end
  end.

Definition deploy (options : BrokerOptions) : M Cluster (option error) :=
  r ← deploy_body options;
  status_End;;
  mret r.

(** [Broker] returns the error and leaves its effect on [*options]; the
    model returns both. *)
Definition Broker (options : BrokerOptions)
    : M Cluster (option error * BrokerOptions) :=
  let componentSet := sets_New (Components (BrokerSpec options)) in
  match isValidComponents O componentSet with
  | Some e =>
      r ← status_Error (Some e) "invalid components parameter";
      mret (r, options)
  | None =>
      let componentSet :=
        if GlobalnetEnabled (BrokerSpec options)
        then sets_Insert componentSet component.Globalnet
        else componentSet in
      let '(err, options) :=
        checkGlobalnetConfig GetValidClusterSize IsValidCIDR options in
      match err with
      | Some _ =>
          r ← status_Error err "invalid GlobalCIDR configuration";
          mret (r, options)
      | None =>
          err ← deploy options;
          match err with
          | Some _ => mret (err, options)
          | None =>
              err ← (if GlobalnetEnabled (BrokerSpec options)
                     then invoke (globalnet_ValidateExistingGlobalNetworks
                                    (BrokerNamespace options))
                     else mret None);
              match err with
              | Some _ =>
                  r ← status_Error err
                        "error validating existing globalCIDR configmap";
                  mret (r, options)
              | None =>
                  err ← invoke (globalnet_CreateConfigMap
                                  (GlobalnetEnabled (BrokerSpec options))
                                  (GlobalnetCIDRRange (BrokerSpec options))
                                  (DefaultGlobalnetClusterSize (BrokerSpec options))
                                  (BrokerNamespace options));
                  match err with
                  | Some _ =>
                      r ← status_Error err
                            "error creating globalCIDR configmap on Broker";
                      mret (r, options)
                  | None => mret (None, options)
                  end
              end
          end
      end
  end.
End Deploy.

(** ** Time formatting ([time.Time.Format]) *)

Module time.
(** The reading [time.Now().UTC()]: the civil fields of the clock in UTC
    and the nanoseconds within the second. *)
Record Time : Type := {
  Year : Z; Month : Z; Day : Z;
  Hour : Z; Minute : Z; Second : Z;
  Nanosecond : Z
}.

Definition decimal (u : N) : string :=
  DecimalString.NilEmpty.string_of_uint (N.to_uint u).

Fixpoint zeros (n : nat) : string :=
  match n with
  | 0 => ""
  | S k => String "0" (zeros k)
  end.

(** [appendInt(b, x, width)]: a sign for a negative [x], then the decimal
    digits of its magnitude, padded with zeros on the left to [width]. *)
Definition appendInt (x : Z) (width : nat) : string :=
  let ds := decimal (Z.abs_N x) in
  (if (x <? 0)%Z then "-" else "") +:+
  zeros (width - String.length ds) +:+ ds.

(** The chunks of the reference time that a layout of digits can hold
    (the [std0x] table, ["2006"] and ["15"]), and literal characters. *)
Inductive chunk : Type :=
| stdLongYear | stdZeroMonth | stdZeroDay | stdHour | stdZeroHour12
| stdZeroMinute | stdZeroSecond | stdYear
| literal (c : ascii).

(** [nextStdChunk], applied until the layout is consumed; [skip] counts
    the characters of the chunk found last that are still to be passed. *)
Fixpoint chunks (skip : nat) (layout : string) : list chunk :=
  match layout with
  | EmptyString => []
  | String c rest =>
      match skip with
      | S k => chunks k rest
      | O =>
          if String.prefix "2006" layout then stdLongYear :: chunks 3 rest
          else if String.prefix "01" layout then stdZeroMonth :: chunks 1 rest
          else if String.prefix "02" layout then stdZeroDay :: chunks 1 rest
          else if String.prefix "03" layout then stdZeroHour12 :: chunks 1 rest
          else if String.prefix "04" layout then stdZeroMinute :: chunks 1 rest
          else if String.prefix "05" layout then stdZeroSecond :: chunks 1 rest
          else if String.prefix "06" layout then stdYear :: chunks 1 rest
          else if String.prefix "15" layout then stdHour :: chunks 1 rest
          else literal c :: chunks 0 rest
      end
  end.

Definition appendChunk (t : Time) (c : chunk) : string :=
  match c with
  | stdLongYear => appendInt (Year t) 4
  | stdZeroMonth => appendInt (Month t) 2
  | stdZeroDay => appendInt (Day t) 2
  | stdHour => appendInt (Hour t) 2
  | stdZeroHour12 =>
      let hr := (Hour t mod 12)%Z in
      appendInt (if (hr =? 0)%Z then 12 else hr) 2
  | stdZeroMinute => appendInt (Minute t) 2
  | stdZeroSecond => appendInt (Second t) 2
  | stdYear => appendInt (Year t mod 100) 2
  | literal c => String c ""
  end.

Definition Format (t : Time) (layout : string) : string :=
  fold_right (λ c acc, appendChunk t c +:+ acc) "" (chunks 0 layout).
End time.

(** ** The gather command *)

Module gather.
(** [gather.Options], with the fields that the command's flags fill. *)
Record Options : Type := {
  Types : list string;
  Modules : list string;
  Directory : string;
  IncludeSensitiveData : bool
}.

Definition set_Directory (options : Options) (dir : string) : Options :=
  {| Types := Types options;
     Modules := Modules options;
     Directory := dir;
     IncludeSensitiveData := IncludeSensitiveData options |}.
End gather.

Module exit.
(** How a command run ends: it returns, or the process exits with a
    failure status after printing the error. *)
Inductive outcome : Type :=
| Returned
| Exited (message : option string) (err : error).

(** Modelled from the spec: [exit.OnErrorWithMessage] of [internal/exit],
    which is not among the sources; an error "fails the entire command",
    the process "terminates non-zero"; a nil error lets the command go
    on. *)
Definition OnErrorWithMessage (err : option error) (message : string)
    : option outcome :=
  match err with
  | Some e => Some (Exited (Some message) e)
  | None => None
  end.

(** Modelled from the spec: [exit.OnError] of [internal/exit], as
    [OnErrorWithMessage] without the message. *)
Definition OnError (err : option error) : option outcome :=
  match err with
  | Some e => Some (Exited None e)
  | None => None
  end.
End exit.

Section Gather.
Import gather.

(** [gather.AllTypes] and [gather.AllModules], the known sets. *)
Variable AllTypes AllModules : gset string.

(** The loop over [options.Types], then the loop over [options.Modules]:
    the first value that its known set does not hold. *)
Fixpoint first_unsupported (known : gset string) (values : list string)
    : option string :=
  match values with
  | [] => None
  | v :: rest =>
      if negb (sets_Has known v) then Some v else first_unsupported known rest
  end.

Definition checkGatherArguments (options : Options) : option error :=
  match first_unsupported AllTypes (Types options) with
  | Some t => Some (Errorf "%q is not a supported type" [t])
  | None =>
      match first_unsupported AllModules (Modules options) with
      | Some m => Some (Errorf "%q is not a supported module" [m])
      | None => None
      end
  end.

(** Cluster contexts, what is done to them, and the two collaborators
    that reach them: [gather.Data] and the producer's
    [RunOnAllContexts], which is handed the function to run and answers
    with the calls it made to clusters and its error. *)
Context {ClusterInfo ClusterCall : Type}.
Variable gather_Data : ClusterInfo → Options → option error.
Variable RunOnAllContexts :
  (ClusterInfo → string → option error) → list ClusterCall * option error.

Record GatherRun : Type := {
  run_options : Options;
  run_started : bool;
  run_calls : list ClusterCall;
  run_outcome : exit.outcome
}.

(** The [Run] function of [gatherCmd], on the process-wide [options] and
    the clock reading [now]. [run_started] tells whether
    [RunOnAllContexts] was invoked. *)
Definition gatherCmd_Run (now : time.Time) (options : Options) : GatherRun :=
  let options :=
    if decide (Directory options = "")
    then set_Directory options
           ("submariner-" +:+ time.Format now "20060102150405")
    else options in
  let err := checkGatherArguments options in
  match exit.OnErrorWithMessage err "Invalid argument" with
  | Some out =>
      {| run_options := options; run_started := false;
         run_calls := []; run_outcome := out |}
  | None =>
      let '(calls, err) :=
        RunOnAllContexts
          (λ clusterInfo namespace, gather_Data clusterInfo options) in
      match exit.OnError err with
      | Some out =>
          {| run_options := options; run_started := true;
             run_calls := calls; run_outcome := out |}
      | None =>
          {| run_options := options; run_started := true;
             run_calls := calls; run_outcome := exit.Returned |}
      end
  end.
End Gather.

(** ** The flags of the gather command *)

(** [addGatherFlags]: the options when no flag is given.  The defaults of
    [--type] and [--module] are the unsorted lists of the known sets, the
    default of [--dir] is empty and sensitive data is not included. *)
Definition addGatherFlags (AllTypes AllModules : gset string) (O : SetOrder)
    : gather.Options :=
  {| gather.Types := UnsortedList O AllTypes;
     gather.Modules := UnsortedList O AllModules;
     gather.Directory := "";
     gather.IncludeSensitiveData := false |}.

(** ** Cloud preparation on RHOS ([RunOn] and [readMetadataFile]) *)

Module rhos.
Record Config : Type := {
  DedicatedGateway : bool;
  Gateways : Z;
  InfraID : string;
  Region : string;
  ProjectID : string;
  OcpMetadataFile : string;
  CloudEntry : string;
  GWInstanceType : string
}.

(** The three assignments that [RunOn] makes through the [*Config]
    pointer. *)
Definition set_metadata (config : Config) (infraID projectID : string)
    : Config :=
  {| DedicatedGateway := DedicatedGateway config;
     Gateways := Gateways config;
     InfraID := infraID;
     Region := Region config;
     ProjectID := projectID;
     OcpMetadataFile := OcpMetadataFile config;
     CloudEntry := CloudEntry config;
     GWInstanceType := GWInstanceType config |}.

Definition set_Region (config : Config) (region : string) : Config :=
  {| DedicatedGateway := DedicatedGateway config;
     Gateways := Gateways config;
     InfraID := InfraID config;
     Region := region;
     ProjectID := ProjectID config;
     OcpMetadataFile := OcpMetadataFile config;
     CloudEntry := CloudEntry config;
     GWInstanceType := GWInstanceType config |}.

Definition set_CloudEntry (config : Config) (cloudEntry : string) : Config :=
  {| DedicatedGateway := DedicatedGateway config;
     Gateways := Gateways config;
     InfraID := InfraID config;
     Region := Region config;
     ProjectID := ProjectID config;
     OcpMetadataFile := OcpMetadataFile config;
     CloudEntry := cloudEntry;
     GWInstanceType := GWInstanceType config |}.

(** The anonymous struct that [readMetadataFile] decodes the file into. *)
Record metadata : Type := {
  metadata_InfraID : string;
  metadata_RHOS_ProjectID : string
}.

(** What a run does, in order: the reporter's events, the accesses to the
    file system, the environment and the two services, and the invocation
    of the function handed to [RunOn]. *)
Inductive event : Type :=
| Start (message : string)
| End_
| Success (message : string)
| Failure (err : error)
| ReadMetadataFile (fileName : string)
| Getenv (key : string)
| AuthenticatedClient (cloud : string)
| BuildRestMapper
| Invoked.

(** State passing over the chronological log. *)
Definition R (A : Type) : Type := list event → A * list event.

Global Instance R_ret : MRet R := λ A a l, (a, l).
Global Instance R_bind : MBind R :=
  λ A B f m l, let '(a, l') := m l in f a l'.

Definition emit (e : event) : R unit := λ l, (tt, l ++ [e]).

(** [status.Error(err, message)], as in the broker deployment. *)
Definition status_Error (err : option error) (message : string)
    : R (option error) :=
  match err with
  | None => mret None
  | Some e =>
      emit (Failure (Wrap e message));;
      emit End_;;
      mret (Some (Wrap e message))
  end.

Section RunOn.
(** The handles that [RunOn] passes around without looking into them. *)
Context {ProviderClient KubeClient DynamicClient RestConfig RestMapper
         K8sInterface Cloud MachinesetDeployer GatewayDeployer : Type}.

(** [cluster.Info], with what [RunOn] takes from it. *)
Record Info : Type := {
  ClientProducer_ForKubernetes : KubeClient;
  ClientProducer_ForDynamic : DynamicClient;
  Info_RestConfig : RestConfig
}.

(** [rhos.CloudInfo] of the cloud-prepare library. *)
Record CloudInfo : Type := {
  Client : ProviderClient;
  CloudInfo_InfraID : string;
  CloudInfo_Region : string;
  K8sClient : K8sInterface
}.

(** [fmt]'s formatting of a message with its arguments. *)
Variable Sprintf : string → list string → string.
(** [cloud.ReadMetadataFile(fileName, &metadata)] on a zero [metadata]:
    the struct after the call and the error. *)
Variable cloud_ReadMetadataFile : string → metadata * option error.
(** [os.Getenv] *)
Variable os_Getenv : string → string.
(** [clientconfig.AuthenticatedClient] on [ClientOpts{Cloud: cloud}] *)
Variable clientconfig_AuthenticatedClient :
  string → ProviderClient * option error.
(** [util.BuildRestMapper] *)
Variable util_BuildRestMapper : RestConfig → RestMapper * option error.
(** The constructors of the cloud-prepare library. *)
Variable k8s_NewInterface : KubeClient → K8sInterface.
Variable rhos_NewCloud : CloudInfo → Cloud.
Variable ocp_NewK8sMachinesetDeployer :
  RestMapper → DynamicClient → MachinesetDeployer.
Variable rhos_NewOcpGatewayDeployer :
  CloudInfo → MachinesetDeployer → string → string → string → string →
  bool → GatewayDeployer.

Definition readMetadataFile (fileName : string)
    : string * string * option error :=
  let '(metadata, err) := cloud_ReadMetadataFile fileName in
  (metadata_InfraID metadata, metadata_RHOS_ProjectID metadata, err).

(** The part of [RunOn] under [if config.OcpMetadataFile != ""]; the
    error is the one that [RunOn] returns at once. *)
Definition RunOn_metadata (config : Config) : R (option error * Config) :=
  if decide (OcpMetadataFile config ≠ "") then
    emit (ReadMetadataFile (OcpMetadataFile config));;
    let '(infraID, projectID, err) :=
      readMetadataFile (OcpMetadataFile config) in
    let config := set_metadata config infraID projectID in
    match err with
    | Some _ =>
        r ← status_Error err
              (Sprintf "Failed to read RHOS information from OCP metadata file %q"
                       [OcpMetadataFile config]);
        mret (r, config)
    | None =>
        emit (Success
                (Sprintf "Obtained infra ID %q and project ID %q from OCP metadata file %q"
                         [InfraID config; ProjectID config;
                          OcpMetadataFile config]));;
        emit (Getenv "OS_REGION_NAME");;
        let config := set_Region config (os_Getenv "OS_REGION_NAME") in
        emit (Success
                (Sprintf "Obtained region %q from environment variable OS_REGION_NAME"
                         [Region config]));;
        mret (None, config)
    end
  else mret (None, config).

(** [RunOn] returns the error and leaves its effect on [*config]; the model
    returns both, after the log. *)
Definition RunOn (clusterInfo : Info) (config : Config)
    (function : Cloud → GatewayDeployer → option error)
    : R (option error * Config) :=
  '(err, config) ← RunOn_metadata config;
  match err with
  | Some _ => mret (err, config)
  | None =>
      emit (Start "Retrieving RHOS credentials from your RHOS configuration");;
      let config :=
        if decide (CloudEntry config = "")
        then set_CloudEntry config "openstack"
        else config in
      emit (AuthenticatedClient (CloudEntry config));;
      let '(providerClient, err) :=
        clientconfig_AuthenticatedClient (CloudEntry config) in
      match err with
      | Some _ =>
          r ← status_Error err "error initializing RHOS Client";
          mret (r, config)
      | None =>
          emit End_;;
          let clientSet := ClientProducer_ForKubernetes clusterInfo in
          let k8sClientSet := k8s_NewInterface clientSet in
          emit BuildRestMapper;;
          let '(restMapper, err) :=
            util_BuildRestMapper (Info_RestConfig clusterInfo) in
          match err with
          | Some _ =>
              r ← status_Error err "error creating REST mapper";
              mret (r, config)
          | None =>
              let dynamicClient := ClientProducer_ForDynamic clusterInfo in
              let cloudInfo :=
                {| Client := providerClient;
                   CloudInfo_InfraID := InfraID config;
                   CloudInfo_Region := Region config;
                   K8sClient := k8sClientSet |} in
              let rhosCloud := rhos_NewCloud cloudInfo in
              let msDeployer :=
                ocp_NewK8sMachinesetDeployer restMapper dynamicClient in
              let gwDeployer :=
                rhos_NewOcpGatewayDeployer cloudInfo msDeployer
                  (ProjectID config) (GWInstanceType config) ""
                  (CloudEntry config) (DedicatedGateway config) in
              emit Invoked;;
              mret (function rhosCloud gwDeployer, config)
          end
      end
  end.
End RunOn.
End rhos.

(** * Vocabulary of the properties *)

Definition KnownComponents : gset string := sets_New ValidComponents.

(** A run starts on a cluster with an empty log. *)
Definition init {Cluster} (cl : Cluster) : World Cluster :=
  {| cluster := cl; log := [] |}.

(** The calls of a log, in order, with their results. *)
Fixpoint calls_of (l : list event) : list (call * option error) :=
  match l with
  | [] => []
  | Called c r :: rest => (c, r) :: calls_of rest
  | _ :: rest => calls_of rest
  end.

Inductive step : Type :=
| RBACSetup | OperatorDeployment | BrokerObjectDeployment
| GlobalAddressConfiguration.

Definition step_of (c : call) : step :=
  match c with
  | broker_Ensure _ _ _ => RBACSetup
  | operator_Ensure _ _ _ => OperatorDeployment
  | brokercr_Ensure _ _ => BrokerObjectDeployment
  | globalnet_ValidateExistingGlobalNetworks _ => GlobalAddressConfiguration
  | globalnet_CreateConfigMap _ _ _ _ => GlobalAddressConfiguration
  end.

(** The message that [deploy] and [Broker] hand to [status.Error] with the
    error of each call. *)
Definition context_of (c : call) : string :=
  match c with
  | broker_Ensure _ _ _ => "error setting up broker RBAC"
  | operator_Ensure _ _ _ => "error deploying Submariner operator"
  | brokercr_Ensure _ _ => "Broker deployment failed"
  | globalnet_ValidateExistingGlobalNetworks _ =>
      "error validating existing globalCIDR configmap"
  | globalnet_CreateConfigMap _ _ _ _ =>
      "error creating globalCIDR configmap on Broker"
  end.

(** The calls of a complete run on [options], in the order of the
    pipeline. *)
Definition pipeline (GetOperatorImage : string → string → string)
    (OperatorNamespace : string) (options : BrokerOptions) : list call :=
  [ broker_Ensure (Components (BrokerSpec options)) false
      (BrokerNamespace options);
    operator_Ensure OperatorNamespace
      (GetOperatorImage (Repository options) (ImageVersion options))
      (OperatorDebug options);
    brokercr_Ensure (BrokerNamespace options) (BrokerSpec options) ]
  ++ (if GlobalnetEnabled (BrokerSpec options)
      then [globalnet_ValidateExistingGlobalNetworks (BrokerNamespace options)]
      else [])
  ++ [ globalnet_CreateConfigMap
         (GlobalnetEnabled (BrokerSpec options))
         (GlobalnetCIDRRange (BrokerSpec options))
         (DefaultGlobalnetClusterSize (BrokerSpec options))
         (BrokerNamespace options) ].

(** Fail-fast, by recursion on the calls: the first call that returned an
    error is the last one, and the run returns its error wrapped with the
    call's message. *)
Fixpoint fail_fast (cs : list (call * option error)) (res : option error)
    : Prop :=
  match cs with
  | [] => True
  | (c, Some e) :: rest => rest = [] ∧ res = Some (Wrap e (context_of c))
  | (_, None) :: rest => fail_fast rest res
  end.

(** A string of exactly [width] decimal digits. *)
Definition is_digit (a : ascii) : bool :=
  (48 <=? N_of_ascii a)%N && (N_of_ascii a <=? 57)%N.

Fixpoint all_digits (s : string) : bool :=
  match s with
  | EmptyString => true
  | String a rest => is_digit a && all_digits rest
  end.

Definition digits_of_width (width : nat) (s : string) : bool :=
  (String.length s =? width)%nat && all_digits s.

(** The civil fields of an instant of the years 0 to 9999. *)
Definition civil (t : time.Time) : Prop :=
  (0 ≤ time.Year t ≤ 9999 ∧ 1 ≤ time.Month t ≤ 12 ∧ 1 ≤ time.Day t ≤ 31
   ∧ 0 ≤ time.Hour t ≤ 23 ∧ 0 ≤ time.Minute t ≤ 59
   ∧ 0 ≤ time.Second t ≤ 59)%Z.

(** The errors reported to the reporter as failures, in order. *)
Fixpoint failures_of (l : list event) : list error :=
  match l with
  | [] => []
  | Failure e :: rest => e :: failures_of rest
  | _ :: rest => failures_of rest
  end.

(** Every call of the log comes right after a [Start]; [started] tells
    whether the event before the log was one. *)
Fixpoint announced (started : bool) (l : list event) : Prop :=
  match l with
  | [] => True
  | Start _ :: rest => announced true rest
  | Called _ _ :: rest => started = true ∧ announced false rest
  | _ :: rest => announced false rest
  end.

(** The cloud entry that [RunOn] works with: the configured one, or
    "openstack" when none is configured. *)
Definition cloud_of (config : rhos.Config) : string :=
  if decide (rhos.CloudEntry config = "") then "openstack"
  else rhos.CloudEntry config.

(** The number that a string of decimal digits writes, after [acc]. *)
Fixpoint digits_value (acc : N) (s : string) : N :=
  match s with
  | EmptyString => acc
  | String a rest => digits_value (10 * acc + (N_of_ascii a - 48)) rest
  end.

(** * A sample environment

    Concrete collaborators, options and a clock reading, on which the model
    runs by computation. *)

Module sample.
(** A cluster that keeps the calls applied to it; a call that [failing]
    selects returns an error and leaves the cluster as it was. *)
Definition perform (failing : call → bool) (c : call) (cl : list call)
    : option error * list call :=
  if failing c
  then (Some (Errorf "the server rejected the request" []), cl)
  else (None, cl ++ [c]).

Definition none_fails (c : call) : bool := false.

Definition operator_fails (c : call) : bool :=
  match c with
  | operator_Ensure _ _ _ => true
  | _ => false
  end.

Definition validation_fails (c : call) : bool :=
  match c with
  | globalnet_ValidateExistingGlobalNetworks _ => true
  | _ => false
  end.

Definition GetValidClusterSize (cidr : string) (size : N) : N * option error :=
  if decide (cidr = "242.0.0.0/8")
  then (if (size =? 0)%N then 65536%N else size, None)
  else (0%N, Some (Errorf "invalid CIDR %s" [cidr])).

Definition IsValidCIDR (cidr : string) : option error :=
  if decide (cidr = "242.0.0.0/8") then None
  else Some (Errorf "invalid CIDR %s" [cidr]).

Definition GetOperatorImage (repository version : string) : string :=
  repository +:+ "/submariner-operator:" +:+ version.

Definition OperatorNamespace : string := "submariner-operator".

Definition options (components : list string) (globalnet : bool)
    (cidr : string) : BrokerOptions :=
  {| OperatorDebug := false;
     Repository := "quay.io/submariner";
     ImageVersion := "devel";
     BrokerNamespace := "submariner-k8s-broker";
     BrokerSpec :=
       {| Components := components;
          GlobalnetEnabled := globalnet;
          GlobalnetCIDRRange := cidr;
          DefaultGlobalnetClusterSize := 0 |} |}.

Definition options_globalnet : BrokerOptions :=
  options ["connectivity"; "service-discovery"] true "242.0.0.0/8".

Definition options_plain : BrokerOptions :=
  options ["connectivity"; "connectivity"; "service-discovery"] false
          "not a range".

Definition options_unknown : BrokerOptions :=
  options ["connectivity"; "gateway"] true "242.0.0.0/8".

(** A run of [Broker] on an untouched cluster. *)
Definition run (failing : call → bool) (o : BrokerOptions)
    : option error * BrokerOptions * World (list call) :=
  Broker (perform failing) GetValidClusterSize IsValidCIDR GetOperatorImage
         OperatorNamespace elements_order o (init []).

Definition run_operator_fails := run operator_fails options_globalnet.
Definition run_validation_fails := run validation_fails options_globalnet.
Definition run_plain := run none_fails options_plain.
Definition run_unknown := run none_fails options_unknown.

Definition AllTypes : gset string := sets_New ["logs"; "resources"].

Definition AllModules : gset string :=
  sets_New ["connectivity"; "service-discovery"; "broker"; "operator"].

Definition contexts : list string := ["cluster1"; "cluster2"].

Definition gather_Data (clusterInfo : string) (o : gather.Options)
    : option error :=
  None.

Definition RunOnAllContexts (function : string → string → option error)
    : list string * option error :=
  (contexts, head (omap (λ c, function c "submariner-operator") contexts)).

Definition gather_options (types : list string) (dir : string)
    : gather.Options :=
  {| gather.Types := types;
     gather.Modules := ["connectivity"; "operator"];
     gather.Directory := dir;
     gather.IncludeSensitiveData := false |}.

(** The command run on the sample contexts. *)
Definition gather_run (now : time.Time) (o : gather.Options)
    : GatherRun (ClusterCall := string) :=
  gatherCmd_Run AllTypes AllModules gather_Data RunOnAllContexts now o.

Definition options_badvalue : gather.Options :=
  gather_options ["logs"; "badvalue"] "".

Definition now : time.Time :=
  {| time.Year := 2023; time.Month := 4; time.Day := 9;
     time.Hour := 7; time.Minute := 5; time.Second := 59;
     time.Nanosecond := 120000 |}.
End sample.

(** * More of the sample environment *)

Module sample2.
Definition options_listed_globalnet : BrokerOptions :=
  sample.options ["connectivity"; "globalnet"] true "242.0.0.0/8".

Definition run_listed_globalnet :=
  sample.run sample.none_fails options_listed_globalnet.

(** A run of [deploy] alone, in which the operator deployment fails. *)
Definition deploy_run : option error * World (list call) :=
  deploy (sample.perform sample.operator_fails) sample.GetOperatorImage
         sample.OperatorNamespace sample.options_globalnet (init []).

(** A reading in the second of [sample.now], and one a second later. *)
Definition same_second : time.Time :=
  {| time.Year := 2023; time.Month := 4; time.Day := 9;
     time.Hour := 7; time.Minute := 5; time.Second := 59;
     time.Nanosecond := 999999999 |}.

Definition next_second : time.Time :=
  {| time.Year := 2023; time.Month := 4; time.Day := 9;
     time.Hour := 7; time.Minute := 6; time.Second := 0;
     time.Nanosecond := 0 |}.

(** Collaborators of [RunOn]; every handle is a string. *)
Definition Sprintf (format : string) (args : list string) : string :=
  String.concat "|" (format :: args).

Definition cloud_ReadMetadataFile (fileName : string)
    : rhos.metadata * option error :=
  if decide (fileName = "metadata.json")
  then ({| rhos.metadata_InfraID := "infra-7";
           rhos.metadata_RHOS_ProjectID := "project-7" |}, None)
  else ({| rhos.metadata_InfraID := "";
           rhos.metadata_RHOS_ProjectID := "" |},
        Some (Errorf "open %s: no such file or directory" [fileName])).

Definition os_Getenv (key : string) : string :=
  if decide (key = "OS_REGION_NAME") then "regionOne" else "".

Definition clientconfig_AuthenticatedClient (cloud : string)
    : string * option error :=
  if decide (cloud = "openstack") then ("client of openstack", None)
  else ("", Some (Errorf "cloud %s does not exist" [cloud])).

Definition util_BuildRestMapper (restConfig : string) : string * option error :=
  if decide (restConfig = "") then ("", Some (Errorf "no host" []))
  else ("mapper", None).

Definition k8s_NewInterface (clientSet : string) : string := clientSet.

Definition rhos_NewCloud
    (info : rhos.CloudInfo (ProviderClient := string) (K8sInterface := string))
    : rhos.CloudInfo (ProviderClient := string) (K8sInterface := string) :=
  info.

Definition ocp_NewK8sMachinesetDeployer (restMapper dynamicClient : string)
    : string * string :=
  (restMapper, dynamicClient).

Definition rhos_NewOcpGatewayDeployer
    (info : rhos.CloudInfo (ProviderClient := string) (K8sInterface := string))
    (msDeployer : string * string)
    (projectID instanceType image cloudEntry : string) (dedicated : bool)
    : list string * bool :=
  ([projectID; instanceType; image; cloudEntry], dedicated).

(** A function that fails on every cloud. *)
Definition function_fails
    (cloud : rhos.CloudInfo (ProviderClient := string) (K8sInterface := string))
    (gwDeployer : list string * bool) : option error :=
  Some (Errorf "quota exceeded in region %s" [rhos.CloudInfo_Region cloud]).

Definition clusterInfo
    : rhos.Info (KubeClient := string) (DynamicClient := string)
                (RestConfig := string) :=
  {| rhos.ClientProducer_ForKubernetes := "kube";
     rhos.ClientProducer_ForDynamic := "dynamic";
     rhos.Info_RestConfig := "https://api.cluster1:6443" |}.

Definition config (file cloudEntry : string) : rhos.Config :=
  {| rhos.DedicatedGateway := true;
     rhos.Gateways := 1;
     rhos.InfraID := "infra-flag";
     rhos.Region := "region-flag";
     rhos.ProjectID := "project-flag";
     rhos.OcpMetadataFile := file;
     rhos.CloudEntry := cloudEntry;
     rhos.GWInstanceType := "m1.large" |}.

Definition RunOn (c : rhos.Config)
    : option error * rhos.Config * list rhos.event :=
  rhos.RunOn Sprintf cloud_ReadMetadataFile os_Getenv
             clientconfig_AuthenticatedClient util_BuildRestMapper
             k8s_NewInterface rhos_NewCloud ocp_NewK8sMachinesetDeployer
             rhos_NewOcpGatewayDeployer clusterInfo c function_fails [].

Definition run_flags := RunOn (config "" "").
Definition run_metadata := RunOn (config "metadata.json" "").
Definition run_missing := RunOn (config "missing.json" "").
Definition run_unknown_cloud := RunOn (config "" "rhos-prod").
End sample2.

(** * A cluster that holds a globalnet configuration record *)

Module sample3.
(** The cluster is the range of the globalnet configuration record that it
    holds, if any.  The validation of the existing configuration is handed
    the namespace and not the requested range: it rejects a record without
    a range and accepts every other one.  The creation writes the range it
    is given; the other calls leave the record alone. *)
Definition perform (c : call) (record : option string)
    : option error * option string :=
  match c with
  | globalnet_ValidateExistingGlobalNetworks _ =>
      match record with
      | Some range =>
          if decide (range = "")
          then (Some (Errorf "invalid GlobalCIDR" []), record)
          else (None, record)
      | None => (None, record)
      end
  | globalnet_CreateConfigMap _ cidrRange _ _ => (None, Some cidrRange)
  | _ => (None, record)
  end.

End sample3.

(** * Properties *)

(** Turns a goal [Broker ... options (init cl) = (res, options', w') → P]
    into one goal per outcome of the two validators and of each call, with
    the result, the options and the log of that outcome in place. *)
Ltac split_calls :=
  repeat match goal with
         | |- context [?perform ?c ?x] =>
             match type of perform with
             | call → _ → _ * _ =>
                 let He := fresh "Hcall" in
                 destruct (perform c x) as [[?|] ?] eqn:He; cbn
             end
         end.

Ltac run_cases :=
  unfold Broker;
  match goal with
  | |- context [isValidComponents ?O ?s] =>
      let Hc := fresh "Hcomponents" in
      destruct (isValidComponents O s) eqn:Hc
  end;
  [ | match goal with
      | |- context [checkGlobalnetConfig ?g ?v ?o] =>
          let Hg := fresh "Hglobalnet" in
          destruct (checkGlobalnetConfig g v o) as [[?|] ?] eqn:Hg
      end;
      [ | match goal with
          | |- context [GlobalnetEnabled (BrokerSpec ?o)] =>
              let Hen := fresh "Henabled" in
              destruct (GlobalnetEnabled (BrokerSpec o)) eqn:Hen
          end ] ];
  unfold deploy, deploy_body, invoke, status_Error, status_Start,
    status_End, emit, init, mbind, mret, M_bind, M_ret;
  cbn; split_calls;
  intros [= <- <- <-]; cbn.

Ltac elem_cases H :=
  repeat (apply elem_of_cons in H as [H|H]);
  [ .. | by apply elem_of_nil in H ].

(** ** The component validator *)

Lemma elem_of_KnownComponents (c : string) :
  c ∈ KnownComponents ↔ c = "service-discovery" ∨ c = "connectivity".
Proof.
  unfold KnownComponents, sets_New, ValidComponents.
  rewrite elem_of_list_to_set, !elem_of_cons, elem_of_nil.
  unfold component.ServiceDiscovery, component.Connectivity. tauto.
Qed.

Lemma sets_Has_true (s : gset string) (c : string) :
  sets_Has s c = true ↔ c ∈ s.
Proof. unfold sets_Has. apply bool_decide_eq_true. Qed.

Lemma sets_Len_lt_1 (s : gset string) : (sets_Len s <? 1)%Z = true ↔ s = ∅.
Proof.
  unfold sets_Len. rewrite Z.ltb_lt.
  split.
  - intros H. apply leibniz_equiv, size_empty_inv. lia.
  - intros ->. rewrite size_empty. lia.
Qed.

Lemma isValidComponents_loop_None (valid : gset string) (l : list string) :
  isValidComponents_loop valid l = None ↔ ∀ c, c ∈ l → c ∈ valid.
Proof.
  induction l as [|x l IH]; simpl.
  - split; [intros _ c Hc; inversion Hc | done].
  - destruct (sets_Has valid x) eqn:Hx; simpl.
    + apply sets_Has_true in Hx. rewrite IH. split.
      * intros H c Hc. apply elem_of_cons in Hc as [->|Hc]; auto.
      * intros H c Hc. apply H. by apply elem_of_cons; right.
    + split; [done|]. intros H.
      assert (x ∈ valid) as Hin by (apply H, elem_of_cons; by left).
      apply sets_Has_true in Hin. congruence.
Qed.

Lemma isValidComponents_loop_Some (valid : gset string) (l : list string) (e : error) :
  isValidComponents_loop valid l = Some e →
  ∃ c, c ∈ l ∧ (c ∉ valid) ∧ e = Errorf "unknown component: %s" [c].
Proof.
  induction l as [|x l IH]; simpl; [done|].
  destruct (sets_Has valid x) eqn:Hx; simpl.
  - intros H. destruct (IH H) as (c & Hc & Hn & ->).
    exists c. split; [by apply elem_of_cons; right | done].
  - intros [= <-]. exists x. split; [by apply elem_of_cons; left|].
    split; [|done]. intros Hin. apply sets_Has_true in Hin. congruence.
Qed.

Lemma elem_of_UnsortedList (O : SetOrder) (s : gset string) (c : string) :
  c ∈ UnsortedList O s ↔ c ∈ s.
Proof. rewrite (UnsortedList_perm O s). apply elem_of_elements. Qed.

Lemma isValidComponents_None (O : SetOrder) (s : gset string) :
  isValidComponents O s = None ↔ s ≠ ∅ ∧ s ⊆ KnownComponents.
Proof.
  unfold isValidComponents. fold KnownComponents.
  destruct (sets_Len s <? 1)%Z eqn:Hlen.
  - apply sets_Len_lt_1 in Hlen. split; [done | intros [? _]; done].
  - assert (s ≠ ∅) as Hne.
    { intros He. apply sets_Len_lt_1 in He. congruence. }
    rewrite isValidComponents_loop_None. split.
    + intros H. split; [done|]. intros c Hc. by apply H, elem_of_UnsortedList.
    + intros [_ H] c Hc. by apply H, (elem_of_UnsortedList O).
Qed.

(** C2. For every component set [s] and every iteration order, the
    validator succeeds iff [s] is non-empty and a subset of the known set
    (service-discovery, connectivity); an empty set gives the "at
    least one component" error; otherwise a failure names a member of [s]
    that is not known.  The validator is a function of the set alone: it
    takes no world and returns none. *)
Theorem isValidComponents_spec (O : SetOrder) (s : gset string) :
  (∀ c, c ∈ KnownComponents ↔ c = "service-discovery" ∨ c = "connectivity")
  ∧ (isValidComponents O s = None ↔ s ≠ ∅ ∧ s ⊆ KnownComponents)
  ∧ (s = ∅ →
     isValidComponents O s =
       Some (Errorf "at least one component must be provided for deployment" []))
  ∧ (s ≠ ∅ → ¬ (s ⊆ KnownComponents) →
     ∃ c, c ∈ s ∧ (c ∉ KnownComponents)
          ∧ isValidComponents O s = Some (Errorf "unknown component: %s" [c])).
Proof.
  split; [apply elem_of_KnownComponents|].
  split; [apply isValidComponents_None|].
  split.
  - intros ->. reflexivity.
  - intros Hne Hsub.
    destruct (isValidComponents O s) as [e|] eqn:He.
    + revert He. unfold isValidComponents. fold KnownComponents.
      destruct (sets_Len s <? 1)%Z eqn:Hlen.
      { apply sets_Len_lt_1 in Hlen. done. }
      intros He. apply isValidComponents_loop_Some in He as (c & Hc & Hn & ->).
      exists c. split; [by apply (elem_of_UnsortedList O)|done].
    + apply isValidComponents_None in He as [_ ?]. done.
Qed.

Lemma isValidComponents_spec_witness :
  (∀ c, c ∈ KnownComponents ↔ c = "service-discovery" ∨ c = "connectivity")
  ∧ (isValidComponents reverse_order (sets_New ["connectivity"; "gateway"])
       = None ↔
     sets_New ["connectivity"; "gateway"] ≠ ∅
     ∧ sets_New ["connectivity"; "gateway"] ⊆ KnownComponents)
  ∧ (sets_New ["connectivity"; "gateway"] = ∅ →
     isValidComponents reverse_order (sets_New ["connectivity"; "gateway"]) =
       Some (Errorf "at least one component must be provided for deployment" []))
  ∧ (sets_New ["connectivity"; "gateway"] ≠ ∅ →
     ¬ (sets_New ["connectivity"; "gateway"] ⊆ KnownComponents) →
     ∃ c, c ∈ sets_New ["connectivity"; "gateway"] ∧ (c ∉ KnownComponents)
          ∧ isValidComponents reverse_order
              (sets_New ["connectivity"; "gateway"])
            = Some (Errorf "unknown component: %s" [c])).
Proof.
  exact (isValidComponents_spec reverse_order
           (sets_New ["connectivity"; "gateway"])).
Defined.


(** ** Runs of [Broker] *)

Lemma fail_fast_split (cs : list (call * option error)) (res : option error) :
  fail_fast cs res →
  ∀ pre c e post, cs = pre ++ (c, Some e) :: post →
    post = [] ∧ res = Some (Wrap e (context_of c)).
Proof.
  induction cs as [|[c0 [e0|]] cs IH]; simpl; intros Hff pre c e post Heq.
  - by destruct pre.
  - destruct Hff as [-> ->]. destruct pre as [|p pre]; simpl in Heq.
    + by inversion Heq.
    + inversion Heq as [[Hp Hnil]]. by destruct pre.
  - destruct pre as [|p pre]; simpl in Heq; [by inversion Heq|].
    inversion Heq; subst. eapply IH; eauto.
Qed.

Lemma pipeline_steps (GetOperatorImage : string → string → string)
    (OperatorNamespace : string) (options : BrokerOptions) :
  step_of <$> pipeline GetOperatorImage OperatorNamespace options
  = [RBACSetup; OperatorDeployment; BrokerObjectDeployment]
    ++ (if GlobalnetEnabled (BrokerSpec options)
        then [GlobalAddressConfiguration] else [])
    ++ [GlobalAddressConfiguration].
Proof.
  unfold pipeline. by destruct (GlobalnetEnabled (BrokerSpec options)).
Qed.

Lemma checkGlobalnetConfig_cases
    (GetValidClusterSize : string → N → N * option error)
    (IsValidCIDR : string → option error)
    (options : BrokerOptions) (err : option error) (options1 : BrokerOptions) :
  checkGlobalnetConfig GetValidClusterSize IsValidCIDR options = (err, options1) →
  (GlobalnetEnabled (BrokerSpec options) = false
   ∧ err = None ∧ options1 = options)
  ∨ (GlobalnetEnabled (BrokerSpec options) = true
     ∧ options1 = set_DefaultGlobalnetClusterSize options
         (GetValidClusterSize (GlobalnetCIDRRange (BrokerSpec options))
            (DefaultGlobalnetClusterSize (BrokerSpec options))).1).
Proof.
  unfold checkGlobalnetConfig.
  destruct (GlobalnetEnabled (BrokerSpec options)); simpl.
  - destruct (GetValidClusterSize _ _) as [size [e|]]; simpl;
      intros [= <- <-]; right; auto.
  - intros [= <- <-]. left; auto.
Qed.

(** Closes [∃ r, (c, r) ∈ cs] for a call [c] of the pipeline split as
    [Hp : pipeline = pre ++ c :: post], from
    [Hall : ∀ c', c' ∈ pre → (c', None) ∈ cs]: either [c] is in [cs], or a
    call before it is in [cs] with an error. *)
Ltac pipeline_progress Hp pre Hall :=
  repeat (destruct pre as [|? pre]; simpl in Hp;
          [ first [discriminate Hp | injection Hp as ? ?; subst]
          | first [discriminate Hp | injection Hp as ? Hp; subst] ]);
  first
    [ eexists;
      solve [repeat first [apply list_elem_of_here | apply list_elem_of_further]]
    | exfalso;
      match type of Hall with
      | ∀ c', c' ∈ ?l → _ ∈ ?cs =>
          let HF := fresh "HF" in
          assert (Forall (λ c' : call, (c', None) ∈ cs) l) as HF
            by (apply Forall_forall; exact Hall);
          repeat (apply Forall_cons in HF as [? HF])
      end;
      match goal with
      | H : (_, None) ∈ _ |- _ => solve [elem_cases H; discriminate]
      end ].

(** Closes a goal [v1 ∧ v2 ∧ (∀ c r, (c, r) ∈ cs → r = None) → res = None]
    in which [cs] holds a call that returned an error. *)
Ltac all_returned_nil :=
  let Hall := fresh "Hall" in
  let HF := fresh "HF" in
  intros (_ & _ & Hall);
  match type of Hall with
  | ∀ c r, (c, r) ∈ ?cs → _ =>
      assert (Forall (λ cr : call * option error, cr.2 = None) cs) as HF
        by (apply Forall_forall; intros [? ?] ?; simpl; eauto)
  end;
  clear Hall; repeat (apply Forall_cons in HF as [? HF]);
  simplify_eq/=.

Section BrokerProperties.
Context {Cluster : Type}.
Variable perform : call → Cluster → option error * Cluster.
Variable GetValidClusterSize : string → N → N * option error.
Variable IsValidCIDR : string → option error.
Variable GetOperatorImage : string → string → string.
Variable OperatorNamespace : string.
Variable O : SetOrder.

Abbreviation Broker' :=
  (Broker perform GetValidClusterSize IsValidCIDR GetOperatorImage
          OperatorNamespace O).
Abbreviation pipeline' := (pipeline GetOperatorImage OperatorNamespace).

(** C1. In every run of [Broker] the calls made are an initial part of
    the pipeline: RBAC setup, operator deployment, broker object
    deployment, then the global-address configuration calls.  A call that
    returns an error is the last call of the run, and the run returns
    that error wrapped with the call's message.  A run that returns no
    error made every call of the pipeline.  When the operator deployment
    fails, no broker-object or global-address call is in the log.  Once
    both validators have passed, every call of the pipeline is made as
    soon as the calls before it have returned nil, and the run returns nil
    exactly when the validators pass and every call made returned nil. *)
Theorem Broker_pipeline_fail_fast
    (options : BrokerOptions) (cl : Cluster)
    (res : option error) (options' : BrokerOptions) (w' : World Cluster) :
  Broker' options (init cl) = (res, options', w') →
  (calls_of (log w')).*1 `prefix_of` pipeline' options'
  ∧ (∀ pre c e post,
       calls_of (log w') = pre ++ (c, Some e) :: post →
       post = [] ∧ res = Some (Wrap e (context_of c)))
  ∧ (res = None → (calls_of (log w')).*1 = pipeline' options')
  ∧ (∀ ns image debug e,
       (operator_Ensure ns image debug, Some e) ∈ calls_of (log w') →
       ∀ c r, (c, r) ∈ calls_of (log w') →
         step_of c ≠ BrokerObjectDeployment
         ∧ step_of c ≠ GlobalAddressConfiguration)
  ∧ (isValidComponents O (sets_New (Components (BrokerSpec options))) = None →
     (checkGlobalnetConfig GetValidClusterSize IsValidCIDR options).1 = None →
     ∀ pre c post,
       pipeline' options' = pre ++ c :: post →
       (∀ c', c' ∈ pre → (c', None) ∈ calls_of (log w')) →
       ∃ r, (c, r) ∈ calls_of (log w'))
  ∧ (res = None ↔
       isValidComponents O (sets_New (Components (BrokerSpec options))) = None
       ∧ (checkGlobalnetConfig GetValidClusterSize IsValidCIDR options).1
         = None
       ∧ (∀ c r, (c, r) ∈ calls_of (log w') → r = None)).
Proof.
  run_cases.
  all: unfold pipeline; rewrite ?Henabled; cbn.
  all: split; [eexists; reflexivity|].
  all: split; [apply fail_fast_split; cbn; auto|].
  all: split; [first [discriminate | reflexivity]|].
  all: split;
    [ intros ? ? ? ? Hop ? ? Hc;
      first [ by (elem_cases Hop; discriminate)
            | elem_cases Hc; inversion Hc; subst; cbn; split; discriminate ]
    | ].
  all: split.
  - done.
  - split; [done | by intros (? & _)].
  - done.
  - split; [done | by intros (_ & ? & _)].
  - intros _ _ pre c' post Hp Hall. pipeline_progress Hp pre Hall.
  - split; [done | all_returned_nil].
  - intros _ _ pre c' post Hp Hall. pipeline_progress Hp pre Hall.
  - split; [done | all_returned_nil].
  - intros _ _ pre c' post Hp Hall. pipeline_progress Hp pre Hall.
  - split; [done | all_returned_nil].
  - intros _ _ pre c' post Hp Hall. pipeline_progress Hp pre Hall.
  - split; [done | all_returned_nil].
  - intros _ _ pre c' post Hp Hall. pipeline_progress Hp pre Hall.
  - split; [done | all_returned_nil].
  - intros _ _ pre c' post Hp Hall. pipeline_progress Hp pre Hall.
  - split; [|done]. intros _. repeat split.
    intros ? ? Hc; elem_cases Hc; by simplify_eq.
  - intros _ _ pre c' post Hp Hall. pipeline_progress Hp pre Hall.
  - split; [done | all_returned_nil].
  - intros _ _ pre c' post Hp Hall. pipeline_progress Hp pre Hall.
  - split; [done | all_returned_nil].
  - intros _ _ pre c' post Hp Hall. pipeline_progress Hp pre Hall.
  - split; [done | all_returned_nil].
  - intros _ _ pre c' post Hp Hall. pipeline_progress Hp pre Hall.
  - split; [done | all_returned_nil].
  - intros _ _ pre c' post Hp Hall. pipeline_progress Hp pre Hall.
  - split; [|done]. intros _. repeat split.
    intros ? ? Hc; elem_cases Hc; by simplify_eq.
Qed.

(** C5. Both validators come before every call: when the component
    validator returns an error, or it passes and the globalnet validator
    returns an error, [Broker] returns that error (wrapped with the
    validator's message), the log holds no call and the cluster is the
    one the run started on.  A run whose log holds a call passed both. *)
Theorem Broker_validates_first
    (options : BrokerOptions) (cl : Cluster)
    (res : option error) (options' : BrokerOptions) (w' : World Cluster) :
  Broker' options (init cl) = (res, options', w') →
  (∀ e, isValidComponents O (sets_New (Components (BrokerSpec options)))
          = Some e →
        res = Some (Wrap e "invalid components parameter")
        ∧ calls_of (log w') = [] ∧ cluster w' = cl)
  ∧ (∀ e, isValidComponents O (sets_New (Components (BrokerSpec options)))
            = None →
          (checkGlobalnetConfig GetValidClusterSize IsValidCIDR options).1
            = Some e →
          res = Some (Wrap e "invalid GlobalCIDR configuration")
          ∧ calls_of (log w') = [] ∧ cluster w' = cl)
  ∧ (calls_of (log w') ≠ [] →
     isValidComponents O (sets_New (Components (BrokerSpec options))) = None
     ∧ (checkGlobalnetConfig GetValidClusterSize IsValidCIDR options).1
       = None).
Proof.
  run_cases.
  all: repeat split; intros; simplify_eq/=; done.
Qed.


(** C3, as the code has it. With globalnet disabled, no run validates
    existing globalnet configuration; the call creating the
    configuration record is still made, with the enabled flag false,
    in every run in which the broker object deployment succeeded. *)
Theorem Broker_globalnet_disabled
    (options : BrokerOptions) (cl : Cluster)
    (res : option error) (options' : BrokerOptions) (w' : World Cluster) :
  GlobalnetEnabled (BrokerSpec options) = false →
  Broker' options (init cl) = (res, options', w') →
  (∀ ns r, (globalnet_ValidateExistingGlobalNetworks ns, r)
             ∉ calls_of (log w'))
  ∧ (∀ ns spec, (brokercr_Ensure ns spec, None) ∈ calls_of (log w') →
       ∃ r, (globalnet_CreateConfigMap false
               (GlobalnetCIDRRange (BrokerSpec options))
               (DefaultGlobalnetClusterSize (BrokerSpec options))
               (BrokerNamespace options), r) ∈ calls_of (log w')).
Proof.
  intros Hoff. run_cases.
  all: try (apply checkGlobalnetConfig_cases in Hglobalnet
              as [(_ & _ & ->)|(Hen & _)]; [|congruence]).
  all: try congruence.
  all: split; [intros ? ? Hv; elem_cases Hv; discriminate|].
  all: intros ? ? Hb; try (elem_cases Hb; discriminate).
  all: eexists; repeat first [apply list_elem_of_here | apply list_elem_of_further].
Qed.

(** C10. [Broker] validates the set of the listed components: on a
    non-empty list of known components, whatever entries repeat, no run
    reports the components as invalid, and a run that also passes the
    globalnet validator goes on to call the cluster.  Two lists with the
    same members are validated alike. *)
Theorem Broker_components_deduplicated
    (options : BrokerOptions) (cl : Cluster)
    (res : option error) (options' : BrokerOptions) (w' : World Cluster) :
  Components (BrokerSpec options) ≠ [] →
  (∀ c, c ∈ Components (BrokerSpec options) → c ∈ KnownComponents) →
  Broker' options (init cl) = (res, options', w') →
  isValidComponents O (sets_New (Components (BrokerSpec options))) = None
  ∧ (∀ l, (∀ c, c ∈ l ↔ c ∈ Components (BrokerSpec options)) →
       isValidComponents O (sets_New l) = None)
  ∧ (∀ e, res ≠ Some (Wrap e "invalid components parameter"))
  ∧ ((checkGlobalnetConfig GetValidClusterSize IsValidCIDR options).1 = None →
     calls_of (log w') ≠ []).
Proof.
  intros Hne Hknown.
  assert (isValidComponents O (sets_New (Components (BrokerSpec options)))
          = None) as Hok.
  { apply isValidComponents_None. unfold sets_New. split.
    - destruct (Components (BrokerSpec options)) as [|x l]; [done|].
      intros He.
      assert (x ∈ (list_to_set (x :: l) : gset string)) as Hx
        by (apply elem_of_list_to_set, elem_of_cons; by left).
      rewrite He in Hx. by apply not_elem_of_empty in Hx.
    - intros c Hc. apply elem_of_list_to_set in Hc. auto. }
  assert (∀ l, (∀ c, c ∈ l ↔ c ∈ Components (BrokerSpec options)) →
            isValidComponents O (sets_New l) = None) as Hsame.
  { intros l Hl. rewrite <- Hok. f_equal. unfold sets_New.
    apply set_eq. intros c. by rewrite !elem_of_list_to_set. }
  run_cases.
  all: try congruence.
  all: repeat split; try done; intros; simplify_eq/=; done.
Qed.
End BrokerProperties.

(** *** Concrete runs of [Broker] *)

Lemma Broker_pipeline_fail_fast_witness :
  sample.run sample.operator_fails sample.options_globalnet
  = (sample.run_operator_fails.1.1, sample.run_operator_fails.1.2, sample.run_operator_fails.2)
  ∧ ((calls_of (log sample.run_operator_fails.2)).*1
       `prefix_of` pipeline sample.GetOperatorImage sample.OperatorNamespace
                     sample.run_operator_fails.1.2
     ∧ (∀ pre c e post,
          calls_of (log sample.run_operator_fails.2)
            = pre ++ (c, Some e) :: post →
          post = [] ∧ sample.run_operator_fails.1.1
                      = Some (Wrap e (context_of c)))
     ∧ (sample.run_operator_fails.1.1 = None →
        (calls_of (log sample.run_operator_fails.2)).*1
        = pipeline sample.GetOperatorImage sample.OperatorNamespace
            sample.run_operator_fails.1.2)
     ∧ (∀ ns image debug e,
          (operator_Ensure ns image debug, Some e)
            ∈ calls_of (log sample.run_operator_fails.2) →
          ∀ c r, (c, r) ∈ calls_of (log sample.run_operator_fails.2) →
            step_of c ≠ BrokerObjectDeployment
            ∧ step_of c ≠ GlobalAddressConfiguration)
     ∧ (isValidComponents elements_order
          (sets_New (Components (BrokerSpec sample.options_globalnet)))
        = None →
        (checkGlobalnetConfig sample.GetValidClusterSize sample.IsValidCIDR
           sample.options_globalnet).1 = None →
        ∀ pre c post,
          pipeline sample.GetOperatorImage sample.OperatorNamespace
            sample.run_operator_fails.1.2 = pre ++ c :: post →
          (∀ c', c' ∈ pre →
                 (c', None) ∈ calls_of (log sample.run_operator_fails.2)) →
          ∃ r, (c, r) ∈ calls_of (log sample.run_operator_fails.2))
     ∧ (sample.run_operator_fails.1.1 = None ↔
          isValidComponents elements_order
            (sets_New (Components (BrokerSpec sample.options_globalnet)))
          = None
          ∧ (checkGlobalnetConfig sample.GetValidClusterSize
               sample.IsValidCIDR sample.options_globalnet).1 = None
          ∧ (∀ c r, (c, r) ∈ calls_of (log sample.run_operator_fails.2) →
                    r = None))).
Proof.
  split; [vm_compute; reflexivity|].
  apply (Broker_pipeline_fail_fast (sample.perform sample.operator_fails)
           sample.GetValidClusterSize sample.IsValidCIDR
           sample.GetOperatorImage sample.OperatorNamespace elements_order
           sample.options_globalnet [] sample.run_operator_fails.1.1 sample.run_operator_fails.1.2 sample.run_operator_fails.2).
  vm_compute; reflexivity.
Defined.

Lemma Broker_validates_first_witness :
  sample.run sample.none_fails sample.options_unknown
  = (sample.run_unknown.1.1, sample.run_unknown.1.2, sample.run_unknown.2)
  ∧ ((∀ e, isValidComponents elements_order
             (sets_New (Components (BrokerSpec sample.options_unknown)))
           = Some e →
         sample.run_unknown.1.1 = Some (Wrap e "invalid components parameter")
         ∧ calls_of (log sample.run_unknown.2) = []
         ∧ cluster sample.run_unknown.2 = [])
     ∧ (∀ e, isValidComponents elements_order
               (sets_New (Components (BrokerSpec sample.options_unknown)))
             = None →
           (checkGlobalnetConfig sample.GetValidClusterSize sample.IsValidCIDR
              sample.options_unknown).1 = Some e →
           sample.run_unknown.1.1
           = Some (Wrap e "invalid GlobalCIDR configuration")
           ∧ calls_of (log sample.run_unknown.2) = []
           ∧ cluster sample.run_unknown.2 = [])
     ∧ (calls_of (log sample.run_unknown.2) ≠ [] →
        isValidComponents elements_order
          (sets_New (Components (BrokerSpec sample.options_unknown))) = None
        ∧ (checkGlobalnetConfig sample.GetValidClusterSize sample.IsValidCIDR
             sample.options_unknown).1 = None)).
Proof.
  split; [vm_compute; reflexivity|].
  apply (Broker_validates_first (sample.perform sample.none_fails)
           sample.GetValidClusterSize sample.IsValidCIDR
           sample.GetOperatorImage sample.OperatorNamespace elements_order
           sample.options_unknown [] sample.run_unknown.1.1 sample.run_unknown.1.2 sample.run_unknown.2).
  vm_compute; reflexivity.
Defined.



(** C3 as stated does not hold: on [sample.options_plain] globalnet is
    disabled, every call succeeds, and the log holds the call creating the
    configuration record. *)
Lemma Broker_disabled_creates_configmap :
  ¬ (GlobalnetEnabled (BrokerSpec sample.options_plain) = false →
     (∀ ns r, (globalnet_ValidateExistingGlobalNetworks ns, r)
                ∉ calls_of (log sample.run_plain.2))
     ∧ (∀ enabled cidr size ns r,
          (globalnet_CreateConfigMap enabled cidr size ns, r)
            ∉ calls_of (log sample.run_plain.2))).
Proof.
  intros H. destruct (H eq_refl) as [_ Hcreate].
  apply (Hcreate false "not a range" 0%N "submariner-k8s-broker" None).
  apply list_elem_of_In. vm_compute. auto 10.
Qed.

Lemma Broker_globalnet_disabled_witness :
  GlobalnetEnabled (BrokerSpec sample.options_plain) = false
  ∧ sample.run sample.none_fails sample.options_plain
  = (sample.run_plain.1.1, sample.run_plain.1.2, sample.run_plain.2)
  ∧ ((∀ ns r, (globalnet_ValidateExistingGlobalNetworks ns, r)
                ∉ calls_of (log sample.run_plain.2))
     ∧ (∀ ns spec,
          (brokercr_Ensure ns spec, None) ∈ calls_of (log sample.run_plain.2) →
          ∃ r, (globalnet_CreateConfigMap false
                  (GlobalnetCIDRRange (BrokerSpec sample.options_plain))
                  (DefaultGlobalnetClusterSize (BrokerSpec sample.options_plain))
                  (BrokerNamespace sample.options_plain), r)
                 ∈ calls_of (log sample.run_plain.2))).
Proof.
  split; [reflexivity|]. split; [vm_compute; reflexivity|].
  apply (Broker_globalnet_disabled (sample.perform sample.none_fails)
           sample.GetValidClusterSize sample.IsValidCIDR
           sample.GetOperatorImage sample.OperatorNamespace elements_order
           sample.options_plain [] sample.run_plain.1.1 sample.run_plain.1.2 sample.run_plain.2).
  - reflexivity.
  - vm_compute; reflexivity.
Defined.

Lemma Broker_components_deduplicated_witness :
  Components (BrokerSpec sample.options_plain) ≠ []
  ∧ (∀ c, c ∈ Components (BrokerSpec sample.options_plain) →
          c ∈ KnownComponents)
  ∧ sample.run sample.none_fails sample.options_plain
  = (sample.run_plain.1.1, sample.run_plain.1.2, sample.run_plain.2)
  ∧ (isValidComponents elements_order
       (sets_New (Components (BrokerSpec sample.options_plain))) = None
     ∧ (∀ l, (∀ c, c ∈ l ↔ c ∈ Components (BrokerSpec sample.options_plain)) →
          isValidComponents elements_order (sets_New l) = None)
     ∧ (∀ e, sample.run_plain.1.1
             ≠ Some (Wrap e "invalid components parameter"))
     ∧ ((checkGlobalnetConfig sample.GetValidClusterSize sample.IsValidCIDR
           sample.options_plain).1 = None →
        calls_of (log sample.run_plain.2) ≠ [])).
Proof.
  assert (∀ c, c ∈ Components (BrokerSpec sample.options_plain) →
               c ∈ KnownComponents) as Hknown.
  { intros c Hc. apply elem_of_KnownComponents. simpl in Hc.
    repeat (apply elem_of_cons in Hc as [->|Hc]); auto.
    by apply elem_of_nil in Hc. }
  split; [discriminate|]. split; [exact Hknown|].
  split; [vm_compute; reflexivity|].
  apply (Broker_components_deduplicated (sample.perform sample.none_fails)
           sample.GetValidClusterSize sample.IsValidCIDR
           sample.GetOperatorImage sample.OperatorNamespace elements_order
           sample.options_plain [] sample.run_plain.1.1 sample.run_plain.1.2 sample.run_plain.2).
  - discriminate.
  - exact Hknown.
  - vm_compute; reflexivity.
Defined.

(** ** The globalnet configuration validator *)

(** C4. With globalnet disabled the validator returns no error and the
    options as they were, whatever the range and the size are and whatever
    [GetValidClusterSize] and [IsValidCIDR] would say of them. *)
Theorem checkGlobalnetConfig_disabled
    (GetValidClusterSize : string → N → N * option error)
    (IsValidCIDR : string → option error) (options : BrokerOptions) :
  GlobalnetEnabled (BrokerSpec options) = false →
  checkGlobalnetConfig GetValidClusterSize IsValidCIDR options = (None, options).
Proof. intros H. unfold checkGlobalnetConfig. by rewrite H. Qed.

Lemma checkGlobalnetConfig_disabled_witness :
  GlobalnetEnabled (BrokerSpec sample.options_plain) = false
  ∧ checkGlobalnetConfig sample.GetValidClusterSize sample.IsValidCIDR
      sample.options_plain
    = (None, sample.options_plain).
Proof.
  split; [reflexivity|].
  apply (checkGlobalnetConfig_disabled sample.GetValidClusterSize
           sample.IsValidCIDR sample.options_plain).
  reflexivity.
Defined.

(** C8. With globalnet enabled the validator changes no field of the
    options but [DefaultGlobalnetClusterSize], whether it fails or not; when
    it succeeds, that field holds the size that [GetValidClusterSize]
    returned for the range and the size given. *)
Theorem checkGlobalnetConfig_frame
    (GetValidClusterSize : string → N → N * option error)
    (IsValidCIDR : string → option error)
    (options options' : BrokerOptions) (err : option error) :
  GlobalnetEnabled (BrokerSpec options) = true →
  checkGlobalnetConfig GetValidClusterSize IsValidCIDR options = (err, options') →
  (OperatorDebug options' = OperatorDebug options
   ∧ Repository options' = Repository options
   ∧ ImageVersion options' = ImageVersion options
   ∧ BrokerNamespace options' = BrokerNamespace options
   ∧ Components (BrokerSpec options') = Components (BrokerSpec options)
   ∧ GlobalnetEnabled (BrokerSpec options') = GlobalnetEnabled (BrokerSpec options)
   ∧ GlobalnetCIDRRange (BrokerSpec options')
     = GlobalnetCIDRRange (BrokerSpec options))
  ∧ (err = None →
     GetValidClusterSize (GlobalnetCIDRRange (BrokerSpec options))
       (DefaultGlobalnetClusterSize (BrokerSpec options))
     = (DefaultGlobalnetClusterSize (BrokerSpec options'), None)
     ∧ IsValidCIDR (GlobalnetCIDRRange (BrokerSpec options)) = None).
Proof.
  intros Hen. unfold checkGlobalnetConfig. rewrite Hen. simpl.
  destruct (GetValidClusterSize _ _) as [size [e|]]; simpl;
    intros [= <- <-]; simpl; repeat split; try done.
Qed.

Lemma checkGlobalnetConfig_frame_witness :
  GlobalnetEnabled (BrokerSpec sample.options_globalnet) = true
  ∧ checkGlobalnetConfig sample.GetValidClusterSize sample.IsValidCIDR
      sample.options_globalnet
    = (None, set_DefaultGlobalnetClusterSize sample.options_globalnet 65536)
  ∧ DefaultGlobalnetClusterSize
      (BrokerSpec (set_DefaultGlobalnetClusterSize sample.options_globalnet 65536))
    = 65536%N
  ∧ GlobalnetCIDRRange
      (BrokerSpec (set_DefaultGlobalnetClusterSize sample.options_globalnet 65536))
    = GlobalnetCIDRRange (BrokerSpec sample.options_globalnet).
Proof.
  assert (checkGlobalnetConfig sample.GetValidClusterSize sample.IsValidCIDR
            sample.options_globalnet
          = (None, set_DefaultGlobalnetClusterSize sample.options_globalnet 65536))
    as Hrun by (vm_compute; reflexivity).
  split; [reflexivity|]. split; [exact Hrun|]. split; [reflexivity|].
  apply (checkGlobalnetConfig_frame sample.GetValidClusterSize
           sample.IsValidCIDR sample.options_globalnet
           (set_DefaultGlobalnetClusterSize sample.options_globalnet 65536)
           None eq_refl Hrun).
Defined.

(** ** The gather command *)

Lemma digits_of_width_app (a b : nat) (s1 s2 : string) :
  digits_of_width a s1 = true → digits_of_width b s2 = true →
  digits_of_width (a + b) (s1 +:+ s2) = true.
Proof.
  unfold digits_of_width. rewrite !andb_true_iff, !Nat.eqb_eq.
  intros [<- H1] [<- H2]. clear -H1 H2.
  induction s1 as [|c s1 IH].
  - change ("" +:+ s2) with s2. done.
  - change (String c s1 +:+ s2) with (String c (s1 +:+ s2)).
    cbn in H1. apply andb_true_iff in H1 as [Hc H1].
    destruct (IH H1) as [Hl Hd]. cbn.
    split; [by rewrite Hl | by rewrite Hc, Hd].
Qed.

Lemma appendInt_below (bound : Z) (width : nat) :
  forallb (λ n, digits_of_width width (time.appendInt (Z.of_nat n) width))
          (seq 0 (Z.to_nat bound)) = true →
  ∀ x, (0 ≤ x < bound)%Z →
       digits_of_width width (time.appendInt x width) = true.
Proof.
  intros Hall x Hx. rewrite forallb_forall in Hall.
  specialize (Hall (Z.to_nat x)). rewrite Z2Nat.id in Hall by lia.
  apply Hall, in_seq. lia.
Qed.

Lemma appendInt_2 (x : Z) :
  (0 ≤ x < 100)%Z → digits_of_width 2 (time.appendInt x 2) = true.
Proof. apply (appendInt_below 100 2). vm_compute. reflexivity. Qed.

Lemma appendInt_4 (x : Z) :
  (0 ≤ x < 10000)%Z → digits_of_width 4 (time.appendInt x 4) = true.
Proof. apply (appendInt_below 10000 4). vm_compute. reflexivity. Qed.

Lemma Format_layout (t : time.Time) :
  time.Format t "20060102150405" =
    time.appendInt (time.Year t) 4 +:+ time.appendInt (time.Month t) 2
    +:+ time.appendInt (time.Day t) 2 +:+ time.appendInt (time.Hour t) 2
    +:+ time.appendInt (time.Minute t) 2
    +:+ time.appendInt (time.Second t) 2 +:+ "".
Proof. reflexivity. Qed.

Section GatherProperties.
Import gather.
Variable AllTypes AllModules : gset string.
Context {ClusterInfo ClusterCall : Type}.
Variable gather_Data : ClusterInfo → Options → option error.
Variable RunOnAllContexts :
  (ClusterInfo → string → option error) → list ClusterCall * option error.

Abbreviation checkGatherArguments' :=
  (checkGatherArguments AllTypes AllModules).
Abbreviation gatherCmd_Run' :=
  (gatherCmd_Run AllTypes AllModules gather_Data RunOnAllContexts).

Lemma first_unsupported_None (known : gset string) (values : list string) :
  first_unsupported known values = None ↔ ∀ v, v ∈ values → v ∈ known.
Proof.
  induction values as [|x l IH]; simpl.
  - split; [intros _ v Hv; inversion Hv | done].
  - destruct (sets_Has known x) eqn:Hx; simpl.
    + apply sets_Has_true in Hx. rewrite IH. split.
      * intros H v Hv. apply elem_of_cons in Hv as [->|Hv]; auto.
      * intros H v Hv. apply H. by apply elem_of_cons; right.
    + split; [done|]. intros H.
      assert (x ∈ known) as Hin by (apply H, elem_of_cons; by left).
      apply sets_Has_true in Hin. congruence.
Qed.

Lemma first_unsupported_Some (known : gset string) (values : list string)
    (v : string) :
  first_unsupported known values = Some v → v ∈ values ∧ v ∉ known.
Proof.
  induction values as [|x l IH]; simpl; [done|].
  destruct (sets_Has known x) eqn:Hx; simpl.
  - intros H. destruct (IH H) as [Hv Hn].
    split; [by apply elem_of_cons; right | done].
  - intros [= <-]. split; [by apply elem_of_cons; left|].
    intros Hin. apply sets_Has_true in Hin. congruence.
Qed.

(** C6. The arguments are checked before [RunOnAllContexts] is invoked.
    The check passes iff every type is in the known type set and every
    module is in the known module set.  When it fails, its error names a
    value of [types] not in the type set, or a value of [modules] not in
    the module set; the command exits with that error, without invoking
    [RunOnAllContexts] and with no call to a cluster. *)
Theorem gatherCmd_preflight (now : time.Time) (options : Options) :
  (checkGatherArguments' options = None ↔
     (∀ t, t ∈ Types options → t ∈ AllTypes)
     ∧ (∀ m, m ∈ Modules options → m ∈ AllModules))
  ∧ (∀ e, checkGatherArguments' options = Some e →
       (∃ v, (v ∈ Types options ∧ (v ∉ AllTypes)
              ∧ e = Errorf "%q is not a supported type" [v])
             ∨ (v ∈ Modules options ∧ (v ∉ AllModules)
                ∧ e = Errorf "%q is not a supported module" [v]))
       ∧ run_started (gatherCmd_Run' now options) = false
       ∧ run_calls (gatherCmd_Run' now options) = []
       ∧ run_outcome (gatherCmd_Run' now options)
         = exit.Exited (Some "Invalid argument") e)
  ∧ (run_started (gatherCmd_Run' now options) = true →
     checkGatherArguments' options = None).
Proof.
  split; [|split].
  - unfold checkGatherArguments.
    destruct (first_unsupported AllTypes _) as [t|] eqn:Ht.
    + split; [done|]. intros [H _].
      pose proof (proj2 (first_unsupported_None _ _) H). congruence.
    + pose proof (proj1 (first_unsupported_None _ _) Ht) as Htypes.
      destruct (first_unsupported AllModules _) as [m|] eqn:Hm.
      * split; [done|]. intros [_ H].
        pose proof (proj2 (first_unsupported_None _ _) H). congruence.
      * pose proof (proj1 (first_unsupported_None _ _) Hm). done.
  - intros e He. split.
    + revert He. unfold checkGatherArguments.
      destruct (first_unsupported AllTypes _) as [t|] eqn:Ht.
      * intros [= <-]. apply first_unsupported_Some in Ht as [? ?].
        exists t. left. done.
      * destruct (first_unsupported AllModules _) as [m|] eqn:Hm; [|done].
        intros [= <-]. apply first_unsupported_Some in Hm as [? ?].
        exists m. right. done.
    + unfold gatherCmd_Run.
      set (options1 := if decide (Directory options = "") then _ else _).
      assert (checkGatherArguments' options1 = Some e) as ->
        by (subst options1; by destruct (decide (Directory options = ""))).
      done.
  - unfold gatherCmd_Run.
    set (options1 := if decide (Directory options = "") then _ else _).
    assert (checkGatherArguments' options1 = checkGatherArguments' options)
      as -> by (subst options1; by destruct (decide (Directory options = ""))).
    destruct (checkGatherArguments' options); simpl; done.
Qed.

(** C9. An empty directory option becomes "submariner-" followed by the
    year, month, day, hour, minute and second of the UTC clock reading,
    zero padded to 4, 2, 2, 2, 2 and 2 digits: fourteen digits for a
    civil time, the same for two readings within one second.  A
    directory option that is not empty is left as it is. *)
Theorem gatherCmd_default_directory (now : time.Time) (options : Options) :
  (Directory options = "" →
     Directory (run_options (gatherCmd_Run' now options))
     = "submariner-" +:+ time.Format now "20060102150405"
     ∧ time.Format now "20060102150405"
       = time.appendInt (time.Year now) 4 +:+ time.appendInt (time.Month now) 2
         +:+ time.appendInt (time.Day now) 2 +:+ time.appendInt (time.Hour now) 2
         +:+ time.appendInt (time.Minute now) 2
         +:+ time.appendInt (time.Second now) 2 +:+ ""
     ∧ (civil now →
        digits_of_width 14 (time.Format now "20060102150405") = true)
     ∧ (∀ later,
          time.Year later = time.Year now → time.Month later = time.Month now →
          time.Day later = time.Day now → time.Hour later = time.Hour now →
          time.Minute later = time.Minute now →
          time.Second later = time.Second now →
          Directory (run_options (gatherCmd_Run' later options))
          = Directory (run_options (gatherCmd_Run' now options))))
  ∧ (Directory options ≠ "" →
     Directory (run_options (gatherCmd_Run' now options)) = Directory options).
Proof.
  assert (∀ t, Directory (run_options (gatherCmd_Run' t options))
               = if decide (Directory options = "")
                 then "submariner-" +:+ time.Format t "20060102150405"
                 else Directory options) as Hdir.
  { intros t. unfold gatherCmd_Run.
    destruct (decide (Directory options = "")) as [He|Hne];
      (destruct (checkGatherArguments' _); simpl;
       [done | destruct (RunOnAllContexts _) as [calls [e|]]; simpl; done]). }
  split.
  - intros Hempty. rewrite !Hdir. rewrite !decide_True by done.
    split; [done|]. split; [apply Format_layout|]. split.
    + intros (Hy & Hmo & Hd & Hh & Hmi & Hs). rewrite Format_layout.
      apply (digits_of_width_app 4 10); [apply appendInt_4; lia|].
      apply (digits_of_width_app 2 8); [apply appendInt_2; lia|].
      apply (digits_of_width_app 2 6); [apply appendInt_2; lia|].
      apply (digits_of_width_app 2 4); [apply appendInt_2; lia|].
      apply (digits_of_width_app 2 2); [apply appendInt_2; lia|].
      apply (digits_of_width_app 2 0); [apply appendInt_2; lia|done].
    + intros later Hy Hmo Hd Hh Hmi Hs.
      rewrite Hdir, decide_True by done.
      by rewrite !Format_layout, Hy, Hmo, Hd, Hh, Hmi, Hs.
  - intros Hne. rewrite Hdir. by rewrite decide_False.
Qed.
End GatherProperties.

(** *** Concrete runs of the gather command *)

Lemma gatherCmd_preflight_witness :
  checkGatherArguments sample.AllTypes sample.AllModules sample.options_badvalue
  = Some (Errorf "%q is not a supported type" ["badvalue"])
  ∧ run_started (sample.gather_run sample.now sample.options_badvalue) = false
  ∧ run_calls (sample.gather_run sample.now sample.options_badvalue) = []
  ∧ run_outcome (sample.gather_run sample.now sample.options_badvalue)
    = exit.Exited (Some "Invalid argument")
        (Errorf "%q is not a supported type" ["badvalue"]).
Proof.
  assert (checkGatherArguments sample.AllTypes sample.AllModules
            sample.options_badvalue
          = Some (Errorf "%q is not a supported type" ["badvalue"])) as Hcheck
    by (vm_compute; reflexivity).
  split; [exact Hcheck|].
  exact (proj2 (proj1 (proj2 (gatherCmd_preflight sample.AllTypes
                                sample.AllModules sample.gather_Data
                                sample.RunOnAllContexts sample.now
                                sample.options_badvalue)) _ Hcheck)).
Defined.

Lemma gatherCmd_default_directory_witness :
  gather.Directory
    (run_options (sample.gather_run sample.now
                    (sample.gather_options ["logs"] "")))
  = "submariner-20230409070559"
  ∧ gather.Directory
      (run_options (sample.gather_run sample.now
                      (sample.gather_options ["logs"] "out")))
    = "out".
Proof.
  split.
  - destruct (proj1 (gatherCmd_default_directory sample.AllTypes
                       sample.AllModules sample.gather_Data
                       sample.RunOnAllContexts sample.now
                       (sample.gather_options ["logs"] "")) eq_refl)
      as [Hdir _].
    etransitivity; [exact Hdir|]. vm_compute; reflexivity.
  - refine (proj2 (gatherCmd_default_directory sample.AllTypes
                     sample.AllModules sample.gather_Data
                     sample.RunOnAllContexts sample.now
                     (sample.gather_options ["logs"] "out")) _).
    discriminate.
Defined.

(** * Further properties *)

(** ** The component validator and [Broker] *)

Lemma isValidComponents_Some (O : SetOrder) (s : gset string) (e : error) :
  isValidComponents O s = Some e →
  (s = ∅
   ∧ e = Errorf "at least one component must be provided for deployment" [])
  ∨ (∃ c, c ∈ s ∧ (c ∉ KnownComponents)
          ∧ e = Errorf "unknown component: %s" [c]).
Proof.
  unfold isValidComponents. fold KnownComponents.
  destruct (sets_Len s <? 1)%Z eqn:Hlen.
  - apply sets_Len_lt_1 in Hlen. intros [= <-]. by left.
  - intros He. apply isValidComponents_loop_Some in He as (c & Hc & Hn & ->).
    right. exists c. split; [by apply (elem_of_UnsortedList O)|done].
Qed.

Lemma Globalnet_not_known : component.Globalnet ∉ KnownComponents.
Proof.
  intros H. apply elem_of_KnownComponents in H as [H|H]; discriminate.
Qed.

(** X6. When exactly one member of the set is not a known component, the
    validator names that member, in whatever order the set is iterated. *)
Theorem isValidComponents_single_unknown
    (O : SetOrder) (s : gset string) (c : string) :
  c ∈ s → c ∉ KnownComponents →
  (∀ c', c' ∈ s → c' ∉ KnownComponents → c' = c) →
  isValidComponents O s = Some (Errorf "unknown component: %s" [c]).
Proof.
  intros Hin Hunknown Honly.
  destruct (isValidComponents O s) as [e|] eqn:He.
  - apply isValidComponents_Some in He as [[-> _]|(c' & Hc' & Hn & ->)].
    + by apply not_elem_of_empty in Hin.
    + by rewrite (Honly c' Hc' Hn).
  - apply isValidComponents_None in He as [_ Hsub]. by apply Hsub in Hin.
Qed.

Lemma isValidComponents_single_unknown_witness :
  "gateway" ∈ sets_New ["connectivity"; "gateway"; "service-discovery"]
  ∧ isValidComponents reverse_order
      (sets_New ["connectivity"; "gateway"; "service-discovery"])
    = Some (Errorf "unknown component: %s" ["gateway"]).
Proof.
  assert ("gateway" ∈ sets_New ["connectivity"; "gateway"; "service-discovery"])
    as Hin.
  { apply elem_of_list_to_set. apply list_elem_of_In. simpl. auto. }
  split; [exact Hin|].
  apply (isValidComponents_single_unknown reverse_order
           (sets_New ["connectivity"; "gateway"; "service-discovery"])
           "gateway" Hin).
  - intros H. apply elem_of_KnownComponents in H as [H|H]; discriminate.
  - intros c' Hc' Hn. unfold sets_New in Hc'.
    apply elem_of_list_to_set in Hc'.
    repeat (apply elem_of_cons in Hc' as [->|Hc']).
    + exfalso. apply Hn, elem_of_KnownComponents. by right.
    + reflexivity.
    + exfalso. apply Hn, elem_of_KnownComponents. by left.
    + by apply elem_of_nil in Hc'.
Defined.

Section BrokerExtras.
Context {Cluster : Type}.
Variable perform : call → Cluster → option error * Cluster.
Variable GetValidClusterSize : string → N → N * option error.
Variable IsValidCIDR : string → option error.
Variable GetOperatorImage : string → string → string.
Variable OperatorNamespace : string.
Variable O : SetOrder.

Abbreviation Broker' :=
  (Broker perform GetValidClusterSize IsValidCIDR GetOperatorImage
          OperatorNamespace O).
Abbreviation deploy' := (deploy perform GetOperatorImage OperatorNamespace).

(** X2. An error that [Broker] returns has been reported to the reporter
    as a failure exactly once, and nothing else has: the failures of the
    log are the returned error, or none when [Broker] returns nil. *)
Theorem Broker_error_reported_once
    (options : BrokerOptions) (cl : Cluster)
    (res : option error) (options' : BrokerOptions) (w' : World Cluster) :
  Broker' options (init cl) = (res, options', w') →
  failures_of (log w') = match res with Some e => [e] | None => [] end.
Proof. run_cases. all: reflexivity. Qed.

(** X3. [Broker] changes no option but [DefaultGlobalnetClusterSize]. With
    globalnet disabled, or when the components are rejected, the options
    are left as they were; with globalnet enabled and the components
    accepted, the size is the one [GetValidClusterSize] returned, also when
    the run fails afterwards. *)
Theorem Broker_options_frame
    (options : BrokerOptions) (cl : Cluster)
    (res : option error) (options' : BrokerOptions) (w' : World Cluster) :
  Broker' options (init cl) = (res, options', w') →
  (GlobalnetEnabled (BrokerSpec options) = false → options' = options)
  ∧ (isValidComponents O (sets_New (Components (BrokerSpec options))) ≠ None →
     options' = options)
  ∧ (isValidComponents O (sets_New (Components (BrokerSpec options))) = None →
     GlobalnetEnabled (BrokerSpec options) = true →
     options' = set_DefaultGlobalnetClusterSize options
       (GetValidClusterSize (GlobalnetCIDRRange (BrokerSpec options))
          (DefaultGlobalnetClusterSize (BrokerSpec options))).1).
Proof.
  run_cases.
  all: try (apply checkGlobalnetConfig_cases in Hglobalnet
              as [(Hoff & _ & ->)|(Hon & ->)]).
  all: repeat split; intros; try done; congruence.
Qed.

(** X4. [Broker] returns nil exactly when both validators pass and every
    call of the log returned nil: the validators and the calls are the only
    sources of failure. *)
Theorem Broker_success_iff
    (options : BrokerOptions) (cl : Cluster)
    (res : option error) (options' : BrokerOptions) (w' : World Cluster) :
  Broker' options (init cl) = (res, options', w') →
  res = None ↔
    isValidComponents O (sets_New (Components (BrokerSpec options))) = None
    ∧ (checkGlobalnetConfig GetValidClusterSize IsValidCIDR options).1 = None
    ∧ (∀ c r, (c, r) ∈ calls_of (log w') → r = None).
Proof.
  run_cases.
  all: split;
    [ intros Hres; try discriminate; repeat split; try done;
      intros ? ? Hc; elem_cases Hc; by simplify_eq
    | intros (Hv1 & Hv2 & Hall); try discriminate; try done ].
  all: match type of Hall with
       | ∀ c r, (c, r) ∈ ?cs → _ =>
           assert (Forall (λ cr : call * option error, cr.2 = None) cs) as HF
             by (apply Forall_forall; intros [? ?] ?; simpl; eauto)
       end.
  all: clear Hall; repeat (apply Forall_cons in HF as [? HF]);
       simplify_eq/=.
Qed.

(** X5. A components list that holds "globalnet" is rejected: [Broker]
    returns the invalid-components error naming a listed component that is
    not known and calls nothing.  The validator rejects every set into
    which the globalnet component has been inserted, so [Broker] inserts it
    only after validating. *)
Theorem Broker_rejects_listed_globalnet
    (options : BrokerOptions) (cl : Cluster)
    (res : option error) (options' : BrokerOptions) (w' : World Cluster) :
  component.Globalnet ∈ Components (BrokerSpec options) →
  Broker' options (init cl) = (res, options', w') →
  (∃ c, c ∈ Components (BrokerSpec options) ∧ (c ∉ KnownComponents)
        ∧ res = Some (Wrap (Errorf "unknown component: %s" [c])
                        "invalid components parameter"))
  ∧ calls_of (log w') = []
  ∧ (∀ s, isValidComponents O (sets_Insert s component.Globalnet) ≠ None).
Proof.
  intros Hin.
  assert (∀ s, component.Globalnet ∈ s → isValidComponents O s ≠ None)
    as Hreject.
  { intros s Hs Hok. apply isValidComponents_None in Hok as [_ Hsub].
    by apply Globalnet_not_known, Hsub. }
  assert (isValidComponents O (sets_New (Components (BrokerSpec options)))
          ≠ None) as Hbad.
  { apply Hreject. unfold sets_New. by apply elem_of_list_to_set. }
  run_cases; try done.
  split; [|split; [done|]].
  - apply isValidComponents_Some in Hcomponents
      as [[Hempty _]|(c & Hc & Hn & ->)].
    + exfalso. unfold sets_New in Hempty.
      assert (component.Globalnet
                ∈ (list_to_set (Components (BrokerSpec options)) : gset string))
        as Hg by (by apply elem_of_list_to_set).
      rewrite Hempty in Hg. by apply not_elem_of_empty in Hg.
    + exists c. unfold sets_New in Hc. apply elem_of_list_to_set in Hc. done.
  - intros s. apply Hreject. unfold sets_Insert. set_solver.
Qed.

Lemma announced_split (started : bool) (l : list event) :
  announced started l →
  ∀ pre c r post, l = pre ++ Called c r :: post →
    (pre = [] ∧ started = true) ∨ ∃ pre' message, pre = pre' ++ [Start message].
Proof.
  revert started. induction l as [|ev l IH]; intros started Ha pre c r post Heq.
  - by destruct pre.
  - destruct pre as [|p pre]; simpl in Heq; inversion Heq; subst.
    + left. simpl in Ha. by destruct Ha.
    + right.
      set (b := match p with Start _ => true | _ => false end).
      assert (announced b (pre ++ Called c r :: post)) as Hb.
      { subst b. destruct p; simpl in Ha; try done. by destruct Ha. }
      destruct (IH b Hb pre c r post eq_refl) as [[-> Hs]|(pre' & m & ->)].
      * subst b. destruct p; try discriminate. by exists [], message.
      * by exists (p :: pre'), m.
Qed.

(** X7. [deploy] announces every call: in each of its runs the log begins
    with a [Start], every call comes right after a [Start], and the last
    event is the deferred [End], whether the run fails or not. *)
Theorem deploy_announces_calls
    (options : BrokerOptions) (cl : Cluster)
    (res : option error) (w' : World Cluster) :
  deploy' options (init cl) = (res, w') →
  head (log w') = Some (Start "Setting up broker RBAC")
  ∧ last (log w') = Some End_
  ∧ (∀ pre c r post, log w' = pre ++ Called c r :: post →
       ∃ pre' message, pre = pre' ++ [Start message]).
Proof.
  unfold deploy, deploy_body, invoke, status_Error, status_Start,
    status_End, emit, init, mbind, mret, M_bind, M_ret.
  cbn. split_calls. all: intros [= <- <-]; cbn.
  all: split; [done|]; split; [done|].
  all: intros ? ? ? ? Heq.
  all: eapply (announced_split false) in Heq as [[_ ?]|?]; [done|done|].
  all: cbn; auto.
Qed.
End BrokerExtras.

(** ** The gather command, its flags and its default directory *)

Lemma below_forallb (P : Z → bool) (bound : Z) :
  forallb (λ n, P (Z.of_nat n)) (seq 0 (Z.to_nat bound)) = true →
  ∀ x, (0 ≤ x < bound)%Z → P x = true.
Proof.
  intros Hall x Hx. rewrite forallb_forall in Hall.
  specialize (Hall (Z.to_nat x)). rewrite Z2Nat.id in Hall by lia.
  apply Hall, in_seq. lia.
Qed.

Lemma appendInt_2_value (x : Z) :
  (0 ≤ x < 100)%Z → Z.of_N (digits_value 0 (time.appendInt x 2)) = x.
Proof.
  intros Hx. apply Z.eqb_eq.
  apply (below_forallb
           (λ x, (Z.of_N (digits_value 0 (time.appendInt x 2)) =? x)%Z) 100);
    [vm_compute; reflexivity | done].
Qed.

Lemma appendInt_4_value (x : Z) :
  (0 ≤ x < 10000)%Z → Z.of_N (digits_value 0 (time.appendInt x 4)) = x.
Proof.
  intros Hx. apply Z.eqb_eq.
  apply (below_forallb
           (λ x, (Z.of_N (digits_value 0 (time.appendInt x 4)) =? x)%Z) 10000);
    [vm_compute; reflexivity | done].
Qed.

Lemma digits_of_width_length (width : nat) (s : string) :
  digits_of_width width s = true → String.length s = width.
Proof.
  unfold digits_of_width. rewrite andb_true_iff, Nat.eqb_eq. by intros [? _].
Qed.

Lemma string_app_inj_length (a1 a2 b1 b2 : string) :
  String.length a1 = String.length a2 →
  a1 +:+ b1 = a2 +:+ b2 → a1 = a2 ∧ b1 = b2.
Proof.
  revert a2. induction a1 as [|c a1 IH]; intros [|c2 a2] Hlen; try done.
  change (String c a1 +:+ b1) with (String c (a1 +:+ b1)).
  change (String c2 a2 +:+ b2) with (String c2 (a2 +:+ b2)).
  intros [= -> Happ]. simpl in Hlen.
  destruct (IH a2 ltac:(lia) Happ) as [-> ->]. done.
Qed.

Lemma appendInt_2_inj (x y : Z) (b1 b2 : string) :
  (0 ≤ x < 100)%Z → (0 ≤ y < 100)%Z →
  time.appendInt x 2 +:+ b1 = time.appendInt y 2 +:+ b2 → x = y ∧ b1 = b2.
Proof.
  intros Hx Hy Heq.
  apply string_app_inj_length in Heq as [Heq ->].
  - split; [|done].
    rewrite <- (appendInt_2_value x), <- (appendInt_2_value y) by done.
    by rewrite Heq.
  - rewrite (digits_of_width_length 2), (digits_of_width_length 2);
      [done | by apply appendInt_2 | by apply appendInt_2].
Qed.

Lemma appendInt_4_inj (x y : Z) (b1 b2 : string) :
  (0 ≤ x < 10000)%Z → (0 ≤ y < 10000)%Z →
  time.appendInt x 4 +:+ b1 = time.appendInt y 4 +:+ b2 → x = y ∧ b1 = b2.
Proof.
  intros Hx Hy Heq.
  apply string_app_inj_length in Heq as [Heq ->].
  - split; [|done].
    rewrite <- (appendInt_4_value x), <- (appendInt_4_value y) by done.
    by rewrite Heq.
  - rewrite (digits_of_width_length 4), (digits_of_width_length 4);
      [done | by apply appendInt_4 | by apply appendInt_4].
Qed.

Lemma Format_layout_inj (t1 t2 : time.Time) :
  civil t1 → civil t2 →
  time.Format t1 "20060102150405" = time.Format t2 "20060102150405" →
  time.Year t1 = time.Year t2 ∧ time.Month t1 = time.Month t2
  ∧ time.Day t1 = time.Day t2 ∧ time.Hour t1 = time.Hour t2
  ∧ time.Minute t1 = time.Minute t2 ∧ time.Second t1 = time.Second t2.
Proof.
  intros (Hy1 & Hmo1 & Hd1 & Hh1 & Hmi1 & Hs1)
         (Hy2 & Hmo2 & Hd2 & Hh2 & Hmi2 & Hs2).
  rewrite !Format_layout. intros Heq.
  apply appendInt_4_inj in Heq as [-> Heq]; [|lia..].
  apply appendInt_2_inj in Heq as [-> Heq]; [|lia..].
  apply appendInt_2_inj in Heq as [-> Heq]; [|lia..].
  apply appendInt_2_inj in Heq as [-> Heq]; [|lia..].
  apply appendInt_2_inj in Heq as [-> Heq]; [|lia..].
  apply appendInt_2_inj in Heq as [-> Heq]; [|lia..].
  done.
Qed.

Section GatherExtras.
Import gather.
Variable AllTypes AllModules : gset string.
Context {ClusterInfo ClusterCall : Type}.
Variable gather_Data : ClusterInfo → Options → option error.
Variable RunOnAllContexts :
  (ClusterInfo → string → option error) → list ClusterCall * option error.

Abbreviation checkGatherArguments' :=
  (checkGatherArguments AllTypes AllModules).
Abbreviation gatherCmd_Run' :=
  (gatherCmd_Run AllTypes AllModules gather_Data RunOnAllContexts).

Lemma gatherCmd_Run_options (now : time.Time) (options : Options) :
  run_options (gatherCmd_Run' now options)
  = if decide (Directory options = "")
    then set_Directory options
           ("submariner-" +:+ time.Format now "20060102150405")
    else options.
Proof.
  unfold gatherCmd_Run.
  destruct (decide (Directory options = "")) as [He|Hne];
    (destruct (checkGatherArguments' _); simpl;
     [done | destruct (RunOnAllContexts _) as [calls [e|]]; simpl; done]).
Qed.

Lemma first_unsupported_first (known : gset string)
    (pre post : list string) (v : string) :
  (∀ x, x ∈ pre → x ∈ known) → v ∉ known →
  first_unsupported known (pre ++ v :: post) = Some v.
Proof.
  intros Hpre Hv. induction pre as [|x pre IH]; simpl.
  - destruct (sets_Has known v) eqn:Hx; [|done].
    by apply sets_Has_true in Hx.
  - destruct (sets_Has known x) eqn:Hx; simpl.
    + apply IH. intros y Hy. apply Hpre. by apply elem_of_cons; right.
    + assert (x ∈ known) as Hin by (apply Hpre, elem_of_cons; by left).
      apply sets_Has_true in Hin. congruence.
Qed.

(** X8. Two civil clock readings give the same default directory exactly
    when they agree on year, month, day, hour, minute and second: default
    directories collide for invocations within one UTC second and for no
    others. *)
Theorem gatherCmd_directory_collision
    (now1 now2 : time.Time) (options : Options) :
  Directory options = "" → civil now1 → civil now2 →
  Directory (run_options (gatherCmd_Run' now1 options))
  = Directory (run_options (gatherCmd_Run' now2 options))
  ↔ time.Year now1 = time.Year now2 ∧ time.Month now1 = time.Month now2
    ∧ time.Day now1 = time.Day now2 ∧ time.Hour now1 = time.Hour now2
    ∧ time.Minute now1 = time.Minute now2
    ∧ time.Second now1 = time.Second now2.
Proof.
  intros Hempty Hc1 Hc2. rewrite !gatherCmd_Run_options.
  rewrite !decide_True by done. simpl. split.
  - intros Heq. apply string_app_inj_length in Heq as [_ Heq]; [|done].
    by apply Format_layout_inj.
  - intros (Hy & Hmo & Hd & Hh & Hmi & Hs).
    by rewrite !Format_layout, Hy, Hmo, Hd, Hh, Hmi, Hs.
Qed.

(** X9. With no flag given, the options that [addGatherFlags] sets pass
    the check of the arguments, in whatever order the known sets are
    listed: the command goes on to [RunOnAllContexts], with the directory
    named after the clock and sensitive data left out. *)
Theorem gatherCmd_defaults_pass (O : SetOrder) (now : time.Time) :
  checkGatherArguments' (addGatherFlags AllTypes AllModules O) = None
  ∧ run_started (gatherCmd_Run' now (addGatherFlags AllTypes AllModules O))
    = true
  ∧ Directory
      (run_options (gatherCmd_Run' now (addGatherFlags AllTypes AllModules O)))
    = "submariner-" +:+ time.Format now "20060102150405"
  ∧ IncludeSensitiveData
      (run_options (gatherCmd_Run' now (addGatherFlags AllTypes AllModules O)))
    = false.
Proof.
  assert (checkGatherArguments' (addGatherFlags AllTypes AllModules O) = None)
    as Hcheck.
  { unfold checkGatherArguments, addGatherFlags. simpl.
    rewrite (proj2 (first_unsupported_None AllTypes (UnsortedList O AllTypes)))
      by (intros v Hv; by apply (elem_of_UnsortedList O)).
    rewrite (proj2 (first_unsupported_None AllModules
                      (UnsortedList O AllModules)))
      by (intros v Hv; by apply (elem_of_UnsortedList O)).
    done. }
  split; [exact Hcheck|]. split.
  - unfold gatherCmd_Run. simpl.
    change (checkGatherArguments' (set_Directory
              (addGatherFlags AllTypes AllModules O) _))
      with (checkGatherArguments' (addGatherFlags AllTypes AllModules O)).
    rewrite Hcheck. simpl.
    by destruct (RunOnAllContexts _) as [calls [e|]].
  - rewrite gatherCmd_Run_options. done.
Qed.

(** X10. The check of the arguments names the first offender: the first
    value of [types], in the order given, that is not a known type,
    whatever the modules are; and, when every type is known, the first
    value of [modules] that is not a known module. *)
Theorem checkGatherArguments_first_offender (options : Options) :
  (∀ pre t post,
     Types options = pre ++ t :: post →
     (∀ x, x ∈ pre → x ∈ AllTypes) → t ∉ AllTypes →
     checkGatherArguments' options
     = Some (Errorf "%q is not a supported type" [t]))
  ∧ (∀ pre m post,
       (∀ t, t ∈ Types options → t ∈ AllTypes) →
       Modules options = pre ++ m :: post →
       (∀ x, x ∈ pre → x ∈ AllModules) → m ∉ AllModules →
       checkGatherArguments' options
       = Some (Errorf "%q is not a supported module" [m])).
Proof.
  split.
  - intros pre t post Heq Hpre Ht. unfold checkGatherArguments.
    by rewrite Heq, (first_unsupported_first AllTypes pre post t).
  - intros pre m post Htypes Heq Hpre Hm. unfold checkGatherArguments.
    rewrite (proj2 (first_unsupported_None AllTypes (Types options)) Htypes).
    by rewrite Heq, (first_unsupported_first AllModules pre post m).
Qed.

(** X11. When the arguments pass the check, [RunOnAllContexts] is handed
    the function that runs [gather.Data] on the options of the run: their
    directory is never empty, and their types, modules and sensitive-data
    flag are the ones given. *)
Theorem gatherCmd_collector_options (now : time.Time) (options : Options) :
  checkGatherArguments' options = None →
  run_calls (gatherCmd_Run' now options)
  = (RunOnAllContexts
       (λ clusterInfo namespace,
          gather_Data clusterInfo
            (run_options (gatherCmd_Run' now options)))).1
  ∧ Directory (run_options (gatherCmd_Run' now options)) ≠ ""
  ∧ Types (run_options (gatherCmd_Run' now options)) = Types options
  ∧ Modules (run_options (gatherCmd_Run' now options)) = Modules options
  ∧ IncludeSensitiveData (run_options (gatherCmd_Run' now options))
    = IncludeSensitiveData options.
Proof.
  intros Hcheck. rewrite !gatherCmd_Run_options. split.
  - unfold gatherCmd_Run.
    destruct (decide (Directory options = "")) as [He|Hne].
    + change (checkGatherArguments' (set_Directory options _))
        with (checkGatherArguments' options).
      rewrite Hcheck. simpl.
      by destruct (RunOnAllContexts _) as [calls [e|]].
    + rewrite Hcheck. simpl.
      by destruct (RunOnAllContexts _) as [calls [e|]].
  - destruct (decide (Directory options = "")) as [He|Hne]; simpl;
      repeat split; done.
Qed.

(** X12. The command returns normally exactly when the arguments pass the
    check and [RunOnAllContexts] returns no error; an error of
    [RunOnAllContexts] ends the process with that error and no message of
    the command. *)
Theorem gatherCmd_outcome (now : time.Time) (options : Options) :
  (run_outcome (gatherCmd_Run' now options) = exit.Returned
   ↔ checkGatherArguments' options = None
     ∧ (RunOnAllContexts
          (λ clusterInfo namespace,
             gather_Data clusterInfo
               (run_options (gatherCmd_Run' now options)))).2 = None)
  ∧ (∀ e, checkGatherArguments' options = None →
       (RunOnAllContexts
          (λ clusterInfo namespace,
             gather_Data clusterInfo
               (run_options (gatherCmd_Run' now options)))).2 = Some e →
       run_outcome (gatherCmd_Run' now options) = exit.Exited None e).
Proof.
  rewrite !gatherCmd_Run_options. unfold gatherCmd_Run.
  set (options1 := if decide (Directory options = "") then _ else _).
  assert (checkGatherArguments' options1 = checkGatherArguments' options)
    as -> by (subst options1; by destruct (decide (Directory options = ""))).
  destruct (checkGatherArguments' options) as [e0|]; simpl.
  - split; [split; [done | by intros [? _]] | done].
  - destruct (RunOnAllContexts _) as [calls [e|]]; simpl.
    + split; [split; [done | by intros [_ ?]] | by intros ? _ [= <-]].
    + split; [done | by intros ? _ ?].
Qed.
End GatherExtras.

(** ** Cloud preparation on RHOS *)

(** Turns a goal [RunOn ... [] = (res, config', l) → P] into one goal per
    outcome of the metadata file, the authentication and the REST mapper. *)
Ltac runon_cases :=
  unfold rhos.RunOn, rhos.RunOn_metadata, rhos.readMetadataFile,
    rhos.status_Error, rhos.emit, mbind, mret, rhos.R_bind, rhos.R_ret,
    cloud_of;
  match goal with
  | |- context [decide (rhos.OcpMetadataFile ?c ≠ "")] =>
      let Hfile := fresh "Hfile" in
      destruct (decide (rhos.OcpMetadataFile c ≠ "")) as [Hfile|Hfile];
      [|apply dec_stable in Hfile]
  end;
  cbn;
  try match goal with
      | |- context [?read (rhos.OcpMetadataFile ?c)] =>
          match type of read with
          | string → rhos.metadata * option error =>
              let Hread := fresh "Hread" in
              destruct (read (rhos.OcpMetadataFile c)) as [? [?|]] eqn:Hread
          end
      end;
  cbn;
  try match goal with
      | |- context [decide (rhos.CloudEntry ?c = "")] =>
          let Hentry := fresh "Hentry" in
          destruct (decide (rhos.CloudEntry c = "")) as [Hentry|Hentry]
      end;
  cbn;
  repeat match goal with
         | |- context [let '(_, _) := ?f ?x in _] =>
             let Hstep := fresh "Hstep" in
             destruct (f x) as [? [?|]] eqn:Hstep; cbn
         end;
  intros [= <- <- <-]; cbn.

Section RunOnProperties.
Context {ProviderClient KubeClient DynamicClient RestConfig RestMapper
         K8sInterface Cloud MachinesetDeployer GatewayDeployer : Type}.
Variable Sprintf : string → list string → string.
Variable cloud_ReadMetadataFile : string → rhos.metadata * option error.
Variable os_Getenv : string → string.
Variable clientconfig_AuthenticatedClient :
  string → ProviderClient * option error.
Variable util_BuildRestMapper : RestConfig → RestMapper * option error.
Variable k8s_NewInterface : KubeClient → K8sInterface.
Variable rhos_NewCloud :
  rhos.CloudInfo (ProviderClient := ProviderClient)
                 (K8sInterface := K8sInterface) → Cloud.
Variable ocp_NewK8sMachinesetDeployer :
  RestMapper → DynamicClient → MachinesetDeployer.
Variable rhos_NewOcpGatewayDeployer :
  rhos.CloudInfo (ProviderClient := ProviderClient)
                 (K8sInterface := K8sInterface) →
  MachinesetDeployer → string → string → string → string → bool →
  GatewayDeployer.

Abbreviation RunOn' :=
  (rhos.RunOn Sprintf cloud_ReadMetadataFile os_Getenv
              clientconfig_AuthenticatedClient util_BuildRestMapper
              k8s_NewInterface rhos_NewCloud ocp_NewK8sMachinesetDeployer
              rhos_NewOcpGatewayDeployer).

Abbreviation Info' :=
  (rhos.Info (KubeClient := KubeClient) (DynamicClient := DynamicClient)
             (RestConfig := RestConfig)).

(** X13. The function handed to [RunOn] is invoked exactly when the
    metadata file (if one is configured), the authentication and the REST
    mapper all succeed; it is then the last thing the run does and is
    invoked once.  When it is not invoked, [RunOn] returns a wrapped
    error. *)
Theorem RunOn_function_gated
    (clusterInfo : Info') (config : rhos.Config)
    (function : Cloud → GatewayDeployer → option error)
    (res : option error) (config' : rhos.Config) (l : list rhos.event) :
  RunOn' clusterInfo config function [] = (res, config', l) →
  (rhos.Invoked ∈ l ↔
     (rhos.OcpMetadataFile config = ""
      ∨ (cloud_ReadMetadataFile (rhos.OcpMetadataFile config)).2 = None)
     ∧ (clientconfig_AuthenticatedClient (cloud_of config)).2 = None
     ∧ (util_BuildRestMapper (rhos.Info_RestConfig clusterInfo)).2 = None)
  ∧ (rhos.Invoked ∈ l →
     ∃ pre, l = pre ++ [rhos.Invoked] ∧ (rhos.Invoked ∉ pre))
  ∧ (rhos.Invoked ∉ l → ∃ e message, res = Some (Wrap e message)).
Proof.
  runon_cases.
  all: split; [split|split].
  all: match goal with
       | |- _ ∈ _ → ∃ pre, ?L = _ ∧ _ =>
           intros Hin;
           first [ by (elem_cases Hin; discriminate)
                 | exists (removelast L); cbn; split; [reflexivity|];
                   intros Hpre; elem_cases Hpre; discriminate ]
       | |- _ ∈ _ → _ =>
           intros Hin;
           first [ by (elem_cases Hin; discriminate) | by repeat split; auto ]
       | |- _ ∉ _ → _ =>
           intros Hout;
           first [ by eexists _, _
                 | exfalso; apply Hout;
                   solve [repeat first [apply list_elem_of_here
                                       | apply list_elem_of_further]] ]
       | |- _ ∧ _ → _ ∈ _ =>
           intros ([?|?] & ? & ?);
           first [ solve [repeat first [apply list_elem_of_here
                                       | apply list_elem_of_further]]
                 | congruence | done ]
       end.
Qed.

(** X14. When the function is invoked, [RunOn] returns the function's
    error as it is.  The cloud it is given holds the authenticated client,
    the infra ID and the region of the configuration as [RunOn] leaves it;
    the gateway deployer is built from the project ID, the instance type,
    an empty image, the cloud entry in use and the dedicated-gateway
    flag. *)
Theorem RunOn_returns_function_result
    (clusterInfo : Info') (config : rhos.Config)
    (function : Cloud → GatewayDeployer → option error)
    (res : option error) (config' : rhos.Config) (l : list rhos.event) :
  RunOn' clusterInfo config function [] = (res, config', l) →
  rhos.Invoked ∈ l →
  let cloudInfo :=
    {| rhos.Client := (clientconfig_AuthenticatedClient (cloud_of config)).1;
       rhos.CloudInfo_InfraID := rhos.InfraID config';
       rhos.CloudInfo_Region := rhos.Region config';
       rhos.K8sClient :=
         k8s_NewInterface (rhos.ClientProducer_ForKubernetes clusterInfo) |} in
  res = function (rhos_NewCloud cloudInfo)
          (rhos_NewOcpGatewayDeployer cloudInfo
             (ocp_NewK8sMachinesetDeployer
                (util_BuildRestMapper (rhos.Info_RestConfig clusterInfo)).1
                (rhos.ClientProducer_ForDynamic clusterInfo))
             (rhos.ProjectID config') (rhos.GWInstanceType config) ""
             (cloud_of config) (rhos.DedicatedGateway config)).
Proof.
  runon_cases.
  all: intros Hin; try (elem_cases Hin; discriminate).
  all: reflexivity.
Qed.

(** X15. The authentication is asked for a cloud entry that is never
    empty: the configured one, or "openstack" when none is configured, and
    the configuration is left holding that entry.  A configured entry is
    never changed, and without an authentication the entry is left as it
    was. *)
Theorem RunOn_cloud_entry
    (clusterInfo : Info') (config : rhos.Config)
    (function : Cloud → GatewayDeployer → option error)
    (res : option error) (config' : rhos.Config) (l : list rhos.event) :
  RunOn' clusterInfo config function [] = (res, config', l) →
  (∀ c, rhos.AuthenticatedClient c ∈ l →
        c = cloud_of config ∧ c ≠ "" ∧ rhos.CloudEntry config' = c)
  ∧ ((∀ c, rhos.AuthenticatedClient c ∉ l) →
     rhos.CloudEntry config' = rhos.CloudEntry config)
  ∧ (rhos.CloudEntry config ≠ "" →
     rhos.CloudEntry config' = rhos.CloudEntry config).
Proof.
  runon_cases.
  all: split;
    [ intros ? Hin; elem_cases Hin; simplify_eq/=;
      rewrite ?decide_True, ?decide_False by done; done
    | split; [|done] ].
  all: intros Hnone; try done.
  all: exfalso; eapply Hnone;
       repeat first [apply list_elem_of_here | apply list_elem_of_further].
Qed.

(** X16. When a metadata file is configured and read, the infra ID and
    the project ID of the configuration are replaced by the file's and the
    region by the value of OS_REGION_NAME, whatever they were and whatever
    that value is. *)
Theorem RunOn_metadata_overrides
    (clusterInfo : Info') (config : rhos.Config)
    (function : Cloud → GatewayDeployer → option error)
    (res : option error) (config' : rhos.Config) (l : list rhos.event) :
  RunOn' clusterInfo config function [] = (res, config', l) →
  rhos.OcpMetadataFile config ≠ "" →
  (cloud_ReadMetadataFile (rhos.OcpMetadataFile config)).2 = None →
  rhos.InfraID config'
  = rhos.metadata_InfraID
      (cloud_ReadMetadataFile (rhos.OcpMetadataFile config)).1
  ∧ rhos.ProjectID config'
    = rhos.metadata_RHOS_ProjectID
        (cloud_ReadMetadataFile (rhos.OcpMetadataFile config)).1
  ∧ rhos.Region config' = os_Getenv "OS_REGION_NAME"
  ∧ rhos.Getenv "OS_REGION_NAME" ∈ l.
Proof.
  runon_cases.
  all: intros Hne Hok; simplify_eq/=.
  all: repeat split; try done.
  all: repeat first [apply list_elem_of_here | apply list_elem_of_further].
Qed.

(** X17. Without a metadata file, [RunOn] leaves the infra ID, the project
    ID and the region as configured, and reads neither a file nor the
    environment. *)
Theorem RunOn_without_metadata
    (clusterInfo : Info') (config : rhos.Config)
    (function : Cloud → GatewayDeployer → option error)
    (res : option error) (config' : rhos.Config) (l : list rhos.event) :
  RunOn' clusterInfo config function [] = (res, config', l) →
  rhos.OcpMetadataFile config = "" →
  rhos.InfraID config' = rhos.InfraID config
  ∧ rhos.ProjectID config' = rhos.ProjectID config
  ∧ rhos.Region config' = rhos.Region config
  ∧ (∀ f, rhos.ReadMetadataFile f ∉ l)
  ∧ (∀ k, rhos.Getenv k ∉ l).
Proof.
  runon_cases.
  all: intros Hempty; try done.
  all: repeat split; try done.
  all: intros ? Hin; elem_cases Hin; discriminate.
Qed.

(** X18. When reading the metadata file fails, [RunOn] returns the error
    wrapped with the message that names the file, after nothing but the
    read and the report of the failure: no environment read, no
    authentication.  The infra ID and the project ID of the configuration
    have been assigned what the failed read left; the region and the cloud
    entry are as they were. *)
Theorem RunOn_metadata_failure
    (clusterInfo : Info') (config : rhos.Config)
    (function : Cloud → GatewayDeployer → option error)
    (res : option error) (config' : rhos.Config) (l : list rhos.event)
    (m : rhos.metadata) (e : error) :
  RunOn' clusterInfo config function [] = (res, config', l) →
  rhos.OcpMetadataFile config ≠ "" →
  cloud_ReadMetadataFile (rhos.OcpMetadataFile config) = (m, Some e) →
  res = Some (Wrap e
                (Sprintf "Failed to read RHOS information from OCP metadata file %q"
                         [rhos.OcpMetadataFile config]))
  ∧ config' = rhos.set_metadata config (rhos.metadata_InfraID m)
                (rhos.metadata_RHOS_ProjectID m)
  ∧ l = [ rhos.ReadMetadataFile (rhos.OcpMetadataFile config);
          rhos.Failure
            (Wrap e
               (Sprintf "Failed to read RHOS information from OCP metadata file %q"
                        [rhos.OcpMetadataFile config]));
          rhos.End_ ].
Proof.
  runon_cases.
  all: intros Hne Hfail; simplify_eq/=; done.
Qed.

(** X19. No run of [RunOn] changes the dedicated-gateway flag, the number
    of gateways, the metadata file name or the gateway instance type. *)
Theorem RunOn_frame
    (clusterInfo : Info') (config : rhos.Config)
    (function : Cloud → GatewayDeployer → option error)
    (res : option error) (config' : rhos.Config) (l : list rhos.event) :
  RunOn' clusterInfo config function [] = (res, config', l) →
  rhos.DedicatedGateway config' = rhos.DedicatedGateway config
  ∧ rhos.Gateways config' = rhos.Gateways config
  ∧ rhos.OcpMetadataFile config' = rhos.OcpMetadataFile config
  ∧ rhos.GWInstanceType config' = rhos.GWInstanceType config.
Proof. runon_cases. all: done. Qed.

(** X20. A failed authentication ends [RunOn] before the REST mapper is
    built, and a failed REST mapper ends it before the function is
    invoked; each error comes back wrapped with the message of its
    step. *)
Theorem RunOn_preparation_fail_fast
    (clusterInfo : Info') (config : rhos.Config)
    (function : Cloud → GatewayDeployer → option error)
    (res : option error) (config' : rhos.Config) (l : list rhos.event) :
  RunOn' clusterInfo config function [] = (res, config', l) →
  (∀ e, rhos.AuthenticatedClient (cloud_of config) ∈ l →
     (clientconfig_AuthenticatedClient (cloud_of config)).2 = Some e →
     res = Some (Wrap e "error initializing RHOS Client")
     ∧ (rhos.BuildRestMapper ∉ l) ∧ (rhos.Invoked ∉ l))
  ∧ (∀ e, rhos.BuildRestMapper ∈ l →
       (util_BuildRestMapper (rhos.Info_RestConfig clusterInfo)).2 = Some e →
       res = Some (Wrap e "error creating REST mapper")
       ∧ (rhos.Invoked ∉ l)).
Proof.
  runon_cases.
  all: split; intros ? Hin Herr; try (elem_cases Hin; discriminate);
       simplify_eq/=.
  all: repeat split; try done.
  all: intros Hbad; elem_cases Hbad; discriminate.
Qed.
End RunOnProperties.

(** ** What the calls of [Broker] are given *)

Section BrokerArguments.
Context {Cluster : Type}.
Variable perform : call → Cluster → option error * Cluster.
Variable GetValidClusterSize : string → N → N * option error.
Variable IsValidCIDR : string → option error.
Variable GetOperatorImage : string → string → string.
Variable OperatorNamespace : string.
Variable O : SetOrder.

Abbreviation Broker' :=
  (Broker perform GetValidClusterSize IsValidCIDR GetOperatorImage
          OperatorNamespace O).

(** X21. With globalnet enabled, the cluster size that reaches the cluster
    is the validated one: the spec given to the broker object deployment
    and the size given to the creation of the configuration record both
    hold the size that [GetValidClusterSize] returned, with the range as
    requested. *)
Theorem Broker_validated_size_deployed
    (options : BrokerOptions) (cl : Cluster)
    (res : option error) (options' : BrokerOptions) (w' : World Cluster) :
  GlobalnetEnabled (BrokerSpec options) = true →
  Broker' options (init cl) = (res, options', w') →
  (∀ ns spec r, (brokercr_Ensure ns spec, r) ∈ calls_of (log w') →
     DefaultGlobalnetClusterSize spec
     = (GetValidClusterSize (GlobalnetCIDRRange (BrokerSpec options))
          (DefaultGlobalnetClusterSize (BrokerSpec options))).1
     ∧ GlobalnetCIDRRange spec = GlobalnetCIDRRange (BrokerSpec options))
  ∧ (∀ enabled cidr size ns r,
       (globalnet_CreateConfigMap enabled cidr size ns, r)
         ∈ calls_of (log w') →
       enabled = true
       ∧ cidr = GlobalnetCIDRRange (BrokerSpec options)
       ∧ size
         = (GetValidClusterSize (GlobalnetCIDRRange (BrokerSpec options))
              (DefaultGlobalnetClusterSize (BrokerSpec options))).1).
Proof.
  intros Hon. run_cases.
  all: try (apply checkGlobalnetConfig_cases in Hglobalnet
              as [(Hoff & _ & ->)|(_ & ->)]; [congruence|]).
  all: try (simpl in Henabled; congruence).
  all: split; intros; repeat match goal with
                             | H : _ ∈ _ |- _ => elem_cases H; simplify_eq/=
                             end.
  all: rewrite ?Hon; repeat split; done.
Qed.

(** X22. The RBAC setup is given the components exactly as listed in the
    options, repeated entries included, and the flag false; the globalnet
    component that [Broker] inserts into its component set when globalnet
    is enabled is not among them unless it was listed. *)
Theorem Broker_components_passed_as_listed
    (options : BrokerOptions) (cl : Cluster)
    (res : option error) (options' : BrokerOptions) (w' : World Cluster) :
  Broker' options (init cl) = (res, options', w') →
  ∀ components flag ns r,
    (broker_Ensure components flag ns, r) ∈ calls_of (log w') →
    components = Components (BrokerSpec options) ∧ flag = false
    ∧ ns = BrokerNamespace options
    ∧ (component.Globalnet ∉ components).
Proof.
  assert (isValidComponents O (sets_New (Components (BrokerSpec options)))
          = None →
          component.Globalnet ∉ Components (BrokerSpec options)) as Hnot.
  { intros Hok Hin. apply isValidComponents_None in Hok as [_ Hsub].
    apply Globalnet_not_known, Hsub. unfold sets_New.
    by apply elem_of_list_to_set. }
  run_cases.
  all: try (apply checkGlobalnetConfig_cases in Hglobalnet
              as [(_ & _ & ->)|(_ & ->)]).
  all: intros ? ? ? ? Hin; elem_cases Hin; simplify_eq/=.
  all: repeat split; auto.
Qed.
End BrokerArguments.

Lemma Broker_validated_size_deployed_witness :
  GlobalnetEnabled (BrokerSpec sample.options_globalnet) = true
  ∧ sample.run sample.validation_fails sample.options_globalnet
    = (sample.run_validation_fails.1.1, sample.run_validation_fails.1.2,
       sample.run_validation_fails.2)
  ∧ (brokercr_Ensure "submariner-k8s-broker"
       (BrokerSpec (set_DefaultGlobalnetClusterSize
                      sample.options_globalnet 65536)), None)
      ∈ calls_of (log sample.run_validation_fails.2)
  ∧ 65536%N
    = (sample.GetValidClusterSize
         (GlobalnetCIDRRange (BrokerSpec sample.options_globalnet))
         (DefaultGlobalnetClusterSize (BrokerSpec sample.options_globalnet))).1.
Proof.
  assert ((brokercr_Ensure "submariner-k8s-broker"
             (BrokerSpec (set_DefaultGlobalnetClusterSize
                            sample.options_globalnet 65536)), None)
            ∈ calls_of (log sample.run_validation_fails.2)) as Hin
    by (apply list_elem_of_In; vm_compute; auto 10).
  split; [reflexivity|]. split; [vm_compute; reflexivity|].
  split; [exact Hin|].
  refine (proj1 (proj1 (Broker_validated_size_deployed
                          (sample.perform sample.validation_fails)
                          sample.GetValidClusterSize sample.IsValidCIDR
                          sample.GetOperatorImage sample.OperatorNamespace
                          elements_order sample.options_globalnet []
                          sample.run_validation_fails.1.1
                          sample.run_validation_fails.1.2
                          sample.run_validation_fails.2 eq_refl _)
                   _ _ _ Hin)).
  vm_compute; reflexivity.
Defined.

Lemma Broker_components_passed_as_listed_witness :
  sample.run sample.none_fails sample.options_plain
  = (sample.run_plain.1.1, sample.run_plain.1.2, sample.run_plain.2)
  ∧ (broker_Ensure ["connectivity"; "connectivity"; "service-discovery"]
       false "submariner-k8s-broker", None)
      ∈ calls_of (log sample.run_plain.2)
  ∧ (["connectivity"; "connectivity"; "service-discovery"]
     = Components (BrokerSpec sample.options_plain)
     ∧ false = false
     ∧ "submariner-k8s-broker" = BrokerNamespace sample.options_plain
     ∧ (component.Globalnet
          ∉ ["connectivity"; "connectivity"; "service-discovery"])).
Proof.
  assert ((broker_Ensure ["connectivity"; "connectivity"; "service-discovery"]
             false "submariner-k8s-broker", None)
            ∈ calls_of (log sample.run_plain.2)) as Hin
    by (apply list_elem_of_In; vm_compute; auto 10).
  split; [vm_compute; reflexivity|]. split; [exact Hin|].
  apply (Broker_components_passed_as_listed
           (sample.perform sample.none_fails)
           sample.GetValidClusterSize sample.IsValidCIDR
           sample.GetOperatorImage sample.OperatorNamespace elements_order
           sample.options_plain [] sample.run_plain.1.1 sample.run_plain.1.2
           sample.run_plain.2 ltac:(vm_compute; reflexivity)
           _ _ _ None Hin).
Defined.

Lemma checkGatherArguments_first_offender_witness :
  gather.Types sample.options_badvalue = ["logs"] ++ "badvalue" :: []
  ∧ checkGatherArguments sample.AllTypes sample.AllModules
      sample.options_badvalue
    = Some (Errorf "%q is not a supported type" ["badvalue"]).
Proof.
  split; [reflexivity|].
  apply (proj1 (checkGatherArguments_first_offender sample.AllTypes
                  sample.AllModules sample.options_badvalue)
           ["logs"] "badvalue" [] eq_refl).
  - intros x Hx. apply elem_of_cons in Hx as [->|Hx];
      [|by apply elem_of_nil in Hx].
    apply elem_of_list_to_set, list_elem_of_In. simpl. auto.
  - intros Hbad. unfold sample.AllTypes, sets_New in Hbad.
    apply elem_of_list_to_set in Hbad.
    repeat (apply elem_of_cons in Hbad as [Hbad|Hbad]); try discriminate.
    by apply elem_of_nil in Hbad.
Defined.

(** ** Concrete runs for the further properties *)

Lemma Broker_error_reported_once_witness :
  sample.run sample.operator_fails sample.options_globalnet
  = (sample.run_operator_fails.1.1, sample.run_operator_fails.1.2, sample.run_operator_fails.2)
  ∧ failures_of (log sample.run_operator_fails.2)
    = match sample.run_operator_fails.1.1 with
      | Some e => [e]
      | None => []
      end.
Proof.
  split; [vm_compute; reflexivity|].
  apply (Broker_error_reported_once (sample.perform sample.operator_fails)
           sample.GetValidClusterSize sample.IsValidCIDR
           sample.GetOperatorImage sample.OperatorNamespace elements_order
           sample.options_globalnet [] sample.run_operator_fails.1.1 sample.run_operator_fails.1.2 sample.run_operator_fails.2).
  vm_compute; reflexivity.
Defined.

Lemma Broker_options_frame_witness :
  sample.run sample.validation_fails sample.options_globalnet
  = (sample.run_validation_fails.1.1, sample.run_validation_fails.1.2, sample.run_validation_fails.2)
  ∧ ((GlobalnetEnabled (BrokerSpec sample.options_globalnet) = false →
      sample.run_validation_fails.1.2 = sample.options_globalnet)
     ∧ (isValidComponents elements_order
          (sets_New (Components (BrokerSpec sample.options_globalnet)))
        ≠ None →
        sample.run_validation_fails.1.2 = sample.options_globalnet)
     ∧ (isValidComponents elements_order
          (sets_New (Components (BrokerSpec sample.options_globalnet)))
        = None →
        GlobalnetEnabled (BrokerSpec sample.options_globalnet) = true →
        sample.run_validation_fails.1.2
        = set_DefaultGlobalnetClusterSize sample.options_globalnet
            (sample.GetValidClusterSize
               (GlobalnetCIDRRange (BrokerSpec sample.options_globalnet))
               (DefaultGlobalnetClusterSize
                  (BrokerSpec sample.options_globalnet))).1)).
Proof.
  split; [vm_compute; reflexivity|].
  apply (Broker_options_frame (sample.perform sample.validation_fails)
           sample.GetValidClusterSize sample.IsValidCIDR
           sample.GetOperatorImage sample.OperatorNamespace elements_order
           sample.options_globalnet [] sample.run_validation_fails.1.1 sample.run_validation_fails.1.2 sample.run_validation_fails.2).
  vm_compute; reflexivity.
Defined.

Lemma Broker_success_iff_witness :
  sample.run sample.none_fails sample.options_plain
  = (sample.run_plain.1.1, sample.run_plain.1.2, sample.run_plain.2)
  ∧ (sample.run_plain.1.1 = None ↔
       isValidComponents elements_order
         (sets_New (Components (BrokerSpec sample.options_plain))) = None
       ∧ (checkGlobalnetConfig sample.GetValidClusterSize sample.IsValidCIDR
            sample.options_plain).1 = None
       ∧ (∀ c r, (c, r) ∈ calls_of (log sample.run_plain.2) → r = None)).
Proof.
  split; [vm_compute; reflexivity|].
  apply (Broker_success_iff (sample.perform sample.none_fails)
           sample.GetValidClusterSize sample.IsValidCIDR
           sample.GetOperatorImage sample.OperatorNamespace elements_order
           sample.options_plain [] sample.run_plain.1.1 sample.run_plain.1.2 sample.run_plain.2).
  vm_compute; reflexivity.
Defined.

Lemma Broker_rejects_listed_globalnet_witness :
  component.Globalnet
    ∈ Components (BrokerSpec sample2.options_listed_globalnet)
  ∧ sample.run sample.none_fails sample2.options_listed_globalnet
  = (sample2.run_listed_globalnet.1.1, sample2.run_listed_globalnet.1.2, sample2.run_listed_globalnet.2)
  ∧ ((∃ c, c ∈ Components (BrokerSpec sample2.options_listed_globalnet)
           ∧ (c ∉ KnownComponents)
           ∧ sample2.run_listed_globalnet.1.1
             = Some (Wrap (Errorf "unknown component: %s" [c])
                       "invalid components parameter"))
     ∧ calls_of (log sample2.run_listed_globalnet.2) = []
     ∧ (∀ s, isValidComponents elements_order
               (sets_Insert s component.Globalnet) ≠ None)).
Proof.
  assert (component.Globalnet
            ∈ Components (BrokerSpec sample2.options_listed_globalnet))
    as Hin by (apply list_elem_of_In; simpl; auto).
  split; [exact Hin|]. split; [vm_compute; reflexivity|].
  apply (Broker_rejects_listed_globalnet (sample.perform sample.none_fails)
           sample.GetValidClusterSize sample.IsValidCIDR
           sample.GetOperatorImage sample.OperatorNamespace elements_order
           sample2.options_listed_globalnet [] sample2.run_listed_globalnet.1.1 sample2.run_listed_globalnet.1.2 sample2.run_listed_globalnet.2).
  - exact Hin.
  - vm_compute; reflexivity.
Defined.

Lemma deploy_announces_calls_witness :
  deploy (sample.perform sample.operator_fails) sample.GetOperatorImage
         sample.OperatorNamespace sample.options_globalnet (init [])
  = (sample2.deploy_run.1, sample2.deploy_run.2)
  ∧ (head (log sample2.deploy_run.2) = Some (Start "Setting up broker RBAC")
     ∧ last (log sample2.deploy_run.2) = Some End_
     ∧ (∀ pre c r post,
          log sample2.deploy_run.2 = pre ++ Called c r :: post →
          ∃ pre' message, pre = pre' ++ [Start message])).
Proof.
  split; [vm_compute; reflexivity|].
  apply (deploy_announces_calls (sample.perform sample.operator_fails)
           sample.GetOperatorImage sample.OperatorNamespace
           sample.options_globalnet [] sample2.deploy_run.1
           sample2.deploy_run.2).
  vm_compute; reflexivity.
Defined.

Lemma gatherCmd_directory_collision_witness :
  gather.Directory (sample.gather_options ["logs"] "") = ""
  ∧ civil sample.now ∧ civil sample2.same_second ∧ civil sample2.next_second
  ∧ gather.Directory
      (run_options (sample.gather_run sample.now
                      (sample.gather_options ["logs"] "")))
    = gather.Directory
        (run_options (sample.gather_run sample2.same_second
                        (sample.gather_options ["logs"] "")))
  ∧ gather.Directory
      (run_options (sample.gather_run sample.now
                      (sample.gather_options ["logs"] "")))
    ≠ gather.Directory
        (run_options (sample.gather_run sample2.next_second
                        (sample.gather_options ["logs"] ""))).
Proof.
  assert (civil sample.now) as H1 by (vm_compute; intuition discriminate).
  assert (civil sample2.same_second) as H2
    by (vm_compute; intuition discriminate).
  assert (civil sample2.next_second) as H3
    by (vm_compute; intuition discriminate).
  split; [reflexivity|]. split; [exact H1|]. split; [exact H2|].
  split; [exact H3|]. split.
  - apply (gatherCmd_directory_collision sample.AllTypes sample.AllModules
             sample.gather_Data sample.RunOnAllContexts sample.now
             sample2.same_second (sample.gather_options ["logs"] "")
             eq_refl H1 H2).
    repeat split.
  - intros Heq.
    apply (gatherCmd_directory_collision sample.AllTypes sample.AllModules
             sample.gather_Data sample.RunOnAllContexts sample.now
             sample2.next_second (sample.gather_options ["logs"] "")
             eq_refl H1 H3) in Heq.
    destruct Heq as (_ & _ & _ & _ & Hminute & _). discriminate Hminute.
Defined.

Lemma gatherCmd_collector_options_witness :
  checkGatherArguments sample.AllTypes sample.AllModules
    (sample.gather_options ["logs"] "") = None
  ∧ run_calls (sample.gather_run sample.now (sample.gather_options ["logs"] ""))
    = ["cluster1"; "cluster2"]
  ∧ gather.Directory
      (run_options (sample.gather_run sample.now
                      (sample.gather_options ["logs"] ""))) ≠ "".
Proof.
  assert (checkGatherArguments sample.AllTypes sample.AllModules
            (sample.gather_options ["logs"] "") = None) as Hcheck
    by (vm_compute; reflexivity).
  split; [exact Hcheck|].
  destruct (gatherCmd_collector_options sample.AllTypes sample.AllModules
              sample.gather_Data sample.RunOnAllContexts sample.now
              (sample.gather_options ["logs"] "") Hcheck)
    as (Hcalls & Hdir & _).
  split; [|exact Hdir].
  etransitivity; [exact Hcalls|]. reflexivity.
Defined.

Lemma RunOn_function_gated_witness :
  sample2.RunOn (sample2.config "" "")
  = (sample2.run_flags.1.1, sample2.run_flags.1.2, sample2.run_flags.2)
  ∧ ((rhos.Invoked ∈ sample2.run_flags.2 ↔
        (rhos.OcpMetadataFile (sample2.config "" "") = ""
         ∨ (sample2.cloud_ReadMetadataFile
              (rhos.OcpMetadataFile (sample2.config "" ""))).2 = None)
        ∧ (sample2.clientconfig_AuthenticatedClient
             (cloud_of (sample2.config "" ""))).2 = None
        ∧ (sample2.util_BuildRestMapper
             (rhos.Info_RestConfig sample2.clusterInfo)).2 = None)
     ∧ (rhos.Invoked ∈ sample2.run_flags.2 →
        ∃ pre, sample2.run_flags.2 = pre ++ [rhos.Invoked]
               ∧ (rhos.Invoked ∉ pre))
     ∧ (rhos.Invoked ∉ sample2.run_flags.2 →
        ∃ e message, sample2.run_flags.1.1 = Some (Wrap e message))).
Proof.
  split; [vm_compute; reflexivity|].
  apply (RunOn_function_gated sample2.Sprintf sample2.cloud_ReadMetadataFile
           sample2.os_Getenv sample2.clientconfig_AuthenticatedClient
           sample2.util_BuildRestMapper sample2.k8s_NewInterface
           sample2.rhos_NewCloud sample2.ocp_NewK8sMachinesetDeployer
           sample2.rhos_NewOcpGatewayDeployer sample2.clusterInfo
           (sample2.config "" "") sample2.function_fails
           sample2.run_flags.1.1 sample2.run_flags.1.2 sample2.run_flags.2).
  vm_compute; reflexivity.
Defined.

Lemma RunOn_returns_function_result_witness :
  sample2.RunOn (sample2.config "" "")
  = (sample2.run_flags.1.1, sample2.run_flags.1.2, sample2.run_flags.2)
  ∧ rhos.Invoked ∈ sample2.run_flags.2
  ∧ sample2.run_flags.1.1
    = Some (Errorf "quota exceeded in region %s" ["region-flag"]).
Proof.
  assert (rhos.Invoked ∈ sample2.run_flags.2) as Hin
    by (apply list_elem_of_In; vm_compute; auto 10).
  split; [vm_compute; reflexivity|]. split; [exact Hin|].
  etransitivity.
  - apply (RunOn_returns_function_result sample2.Sprintf sample2.cloud_ReadMetadataFile
           sample2.os_Getenv sample2.clientconfig_AuthenticatedClient
           sample2.util_BuildRestMapper sample2.k8s_NewInterface
           sample2.rhos_NewCloud sample2.ocp_NewK8sMachinesetDeployer
           sample2.rhos_NewOcpGatewayDeployer sample2.clusterInfo
           (sample2.config "" "") sample2.function_fails
           sample2.run_flags.1.1 sample2.run_flags.1.2 sample2.run_flags.2).
    + vm_compute; reflexivity.
    + exact Hin.
  - vm_compute; reflexivity.
Defined.

Lemma RunOn_cloud_entry_witness :
  sample2.RunOn (sample2.config "" "")
  = (sample2.run_flags.1.1, sample2.run_flags.1.2, sample2.run_flags.2)
  ∧ rhos.AuthenticatedClient "openstack" ∈ sample2.run_flags.2
  ∧ "openstack" = cloud_of (sample2.config "" "")
  ∧ "openstack" ≠ ""
  ∧ rhos.CloudEntry sample2.run_flags.1.2 = "openstack".
Proof.
  assert (rhos.AuthenticatedClient "openstack" ∈ sample2.run_flags.2) as Hin
    by (apply list_elem_of_In; vm_compute; auto 10).
  split; [vm_compute; reflexivity|]. split; [exact Hin|].
  refine (proj1 (RunOn_cloud_entry sample2.Sprintf sample2.cloud_ReadMetadataFile
           sample2.os_Getenv sample2.clientconfig_AuthenticatedClient
           sample2.util_BuildRestMapper sample2.k8s_NewInterface
           sample2.rhos_NewCloud sample2.ocp_NewK8sMachinesetDeployer
           sample2.rhos_NewOcpGatewayDeployer sample2.clusterInfo
           (sample2.config "" "") sample2.function_fails
           sample2.run_flags.1.1 sample2.run_flags.1.2 sample2.run_flags.2 _)
            "openstack" Hin).
  vm_compute; reflexivity.
Defined.

Lemma RunOn_metadata_overrides_witness :
  sample2.RunOn (sample2.config "metadata.json" "")
  = (sample2.run_metadata.1.1, sample2.run_metadata.1.2, sample2.run_metadata.2)
  ∧ rhos.OcpMetadataFile (sample2.config "metadata.json" "") ≠ ""
  ∧ (sample2.cloud_ReadMetadataFile
       (rhos.OcpMetadataFile (sample2.config "metadata.json" ""))).2 = None
  ∧ (rhos.InfraID sample2.run_metadata.1.2
     = rhos.metadata_InfraID
         (sample2.cloud_ReadMetadataFile
            (rhos.OcpMetadataFile (sample2.config "metadata.json" ""))).1
     ∧ rhos.ProjectID sample2.run_metadata.1.2
       = rhos.metadata_RHOS_ProjectID
           (sample2.cloud_ReadMetadataFile
              (rhos.OcpMetadataFile (sample2.config "metadata.json" ""))).1
     ∧ rhos.Region sample2.run_metadata.1.2
       = sample2.os_Getenv "OS_REGION_NAME"
     ∧ rhos.Getenv "OS_REGION_NAME" ∈ sample2.run_metadata.2).
Proof.
  split; [vm_compute; reflexivity|]. split; [discriminate|].
  split; [vm_compute; reflexivity|].
  apply (RunOn_metadata_overrides sample2.Sprintf sample2.cloud_ReadMetadataFile
           sample2.os_Getenv sample2.clientconfig_AuthenticatedClient
           sample2.util_BuildRestMapper sample2.k8s_NewInterface
           sample2.rhos_NewCloud sample2.ocp_NewK8sMachinesetDeployer
           sample2.rhos_NewOcpGatewayDeployer sample2.clusterInfo
           (sample2.config "metadata.json" "") sample2.function_fails
           sample2.run_metadata.1.1 sample2.run_metadata.1.2 sample2.run_metadata.2).
  - vm_compute; reflexivity.
  - discriminate.
  - vm_compute; reflexivity.
Defined.

Lemma RunOn_without_metadata_witness :
  sample2.RunOn (sample2.config "" "")
  = (sample2.run_flags.1.1, sample2.run_flags.1.2, sample2.run_flags.2)
  ∧ rhos.OcpMetadataFile (sample2.config "" "") = ""
  ∧ (rhos.InfraID sample2.run_flags.1.2 = rhos.InfraID (sample2.config "" "")
     ∧ rhos.ProjectID sample2.run_flags.1.2
       = rhos.ProjectID (sample2.config "" "")
     ∧ rhos.Region sample2.run_flags.1.2 = rhos.Region (sample2.config "" "")
     ∧ (∀ f, rhos.ReadMetadataFile f ∉ sample2.run_flags.2)
     ∧ (∀ k, rhos.Getenv k ∉ sample2.run_flags.2)).
Proof.
  split; [vm_compute; reflexivity|]. split; [reflexivity|].
  apply (RunOn_without_metadata sample2.Sprintf sample2.cloud_ReadMetadataFile
           sample2.os_Getenv sample2.clientconfig_AuthenticatedClient
           sample2.util_BuildRestMapper sample2.k8s_NewInterface
           sample2.rhos_NewCloud sample2.ocp_NewK8sMachinesetDeployer
           sample2.rhos_NewOcpGatewayDeployer sample2.clusterInfo
           (sample2.config "" "") sample2.function_fails
           sample2.run_flags.1.1 sample2.run_flags.1.2 sample2.run_flags.2).
  - vm_compute; reflexivity.
  - reflexivity.
Defined.

Lemma RunOn_metadata_failure_witness :
  sample2.RunOn (sample2.config "missing.json" "")
  = (sample2.run_missing.1.1, sample2.run_missing.1.2, sample2.run_missing.2)
  ∧ rhos.OcpMetadataFile (sample2.config "missing.json" "") ≠ ""
  ∧ sample2.cloud_ReadMetadataFile
      (rhos.OcpMetadataFile (sample2.config "missing.json" ""))
    = ({| rhos.metadata_InfraID := ""; rhos.metadata_RHOS_ProjectID := "" |},
       Some (Errorf "open %s: no such file or directory" ["missing.json"]))
  ∧ rhos.InfraID sample2.run_missing.1.2 = ""
  ∧ rhos.Region sample2.run_missing.1.2 = "region-flag"
  ∧ length sample2.run_missing.2 = 3.
Proof.
  assert (sample2.cloud_ReadMetadataFile
            (rhos.OcpMetadataFile (sample2.config "missing.json" ""))
          = ({| rhos.metadata_InfraID := "";
                rhos.metadata_RHOS_ProjectID := "" |},
             Some (Errorf "open %s: no such file or directory"
                     ["missing.json"]))) as Hread
    by (vm_compute; reflexivity).
  split; [vm_compute; reflexivity|]. split; [discriminate|].
  split; [exact Hread|].
  destruct (RunOn_metadata_failure sample2.Sprintf sample2.cloud_ReadMetadataFile
           sample2.os_Getenv sample2.clientconfig_AuthenticatedClient
           sample2.util_BuildRestMapper sample2.k8s_NewInterface
           sample2.rhos_NewCloud sample2.ocp_NewK8sMachinesetDeployer
           sample2.rhos_NewOcpGatewayDeployer sample2.clusterInfo
           (sample2.config "missing.json" "") sample2.function_fails
           sample2.run_missing.1.1 sample2.run_missing.1.2 sample2.run_missing.2
              _ _
              ltac:(vm_compute; reflexivity) ltac:(discriminate) Hread)
    as (_ & Hconfig & Hlog).
  rewrite Hconfig, Hlog. repeat split.
Defined.

Lemma RunOn_frame_witness :
  sample2.RunOn (sample2.config "metadata.json" "")
  = (sample2.run_metadata.1.1, sample2.run_metadata.1.2, sample2.run_metadata.2)
  ∧ (rhos.DedicatedGateway sample2.run_metadata.1.2
     = rhos.DedicatedGateway (sample2.config "metadata.json" "")
     ∧ rhos.Gateways sample2.run_metadata.1.2
       = rhos.Gateways (sample2.config "metadata.json" "")
     ∧ rhos.OcpMetadataFile sample2.run_metadata.1.2
       = rhos.OcpMetadataFile (sample2.config "metadata.json" "")
     ∧ rhos.GWInstanceType sample2.run_metadata.1.2
       = rhos.GWInstanceType (sample2.config "metadata.json" "")).
Proof.
  split; [vm_compute; reflexivity|].
  apply (RunOn_frame sample2.Sprintf sample2.cloud_ReadMetadataFile
           sample2.os_Getenv sample2.clientconfig_AuthenticatedClient
           sample2.util_BuildRestMapper sample2.k8s_NewInterface
           sample2.rhos_NewCloud sample2.ocp_NewK8sMachinesetDeployer
           sample2.rhos_NewOcpGatewayDeployer sample2.clusterInfo
           (sample2.config "metadata.json" "") sample2.function_fails
           sample2.run_metadata.1.1 sample2.run_metadata.1.2 sample2.run_metadata.2).
  vm_compute; reflexivity.
Defined.

Lemma RunOn_preparation_fail_fast_witness :
  sample2.RunOn (sample2.config "" "rhos-prod")
  = (sample2.run_unknown_cloud.1.1, sample2.run_unknown_cloud.1.2, sample2.run_unknown_cloud.2)
  ∧ rhos.AuthenticatedClient (cloud_of (sample2.config "" "rhos-prod"))
      ∈ sample2.run_unknown_cloud.2
  ∧ (sample2.clientconfig_AuthenticatedClient
       (cloud_of (sample2.config "" "rhos-prod"))).2
    = Some (Errorf "cloud %s does not exist" ["rhos-prod"])
  ∧ (sample2.run_unknown_cloud.1.1
     = Some (Wrap (Errorf "cloud %s does not exist" ["rhos-prod"])
               "error initializing RHOS Client")
     ∧ (rhos.BuildRestMapper ∉ sample2.run_unknown_cloud.2)
     ∧ (rhos.Invoked ∉ sample2.run_unknown_cloud.2)).
Proof.
  assert (rhos.AuthenticatedClient (cloud_of (sample2.config "" "rhos-prod"))
            ∈ sample2.run_unknown_cloud.2) as Hin
    by (apply list_elem_of_In; vm_compute; auto 10).
  assert ((sample2.clientconfig_AuthenticatedClient
             (cloud_of (sample2.config "" "rhos-prod"))).2
          = Some (Errorf "cloud %s does not exist" ["rhos-prod"])) as Herr
    by (vm_compute; reflexivity).
  split; [vm_compute; reflexivity|]. split; [exact Hin|].
  split; [exact Herr|].
  refine (proj1 (RunOn_preparation_fail_fast sample2.Sprintf sample2.cloud_ReadMetadataFile
           sample2.os_Getenv sample2.clientconfig_AuthenticatedClient
           sample2.util_BuildRestMapper sample2.k8s_NewInterface
           sample2.rhos_NewCloud sample2.ocp_NewK8sMachinesetDeployer
           sample2.rhos_NewOcpGatewayDeployer sample2.clusterInfo
           (sample2.config "" "rhos-prod") sample2.function_fails
           sample2.run_unknown_cloud.1.1 sample2.run_unknown_cloud.1.2 sample2.run_unknown_cloud.2 _)
            _ Hin Herr).
  vm_compute; reflexivity.
Defined.
